(** * market-server: the routes and models, embedded and verified

    The development follows the layout of the repository:

    - [routes/products.js] (the router mounted by [server.js]) and the two
      other revisions of the same router kept in the source tree,
    - the authentication router ([/register], [/login]),
    - the cart model ([cartItemSchema], [cartSchema.methods.getTotal]) and
      the cart ledger, whose router is not among the sources and is taken
      from the spec.

    A handler is a function from the request and the state of the world
    (the collections and the upload directory) to a response and the next
    state.  Whatever the handler cannot control (the clock, the id the
    database picks, whether a database call throws) is read from an
    environment record given with the request. *)

From Stdlib Require Import Hexadecimal HexadecimalString.
From Stdlib Require DecimalString.
From Stdlib Require Import Ascii.
From stdpp Require Import gmap strings list fin_maps sorting.

Local Open Scope string_scope.

(** ** JavaScript values *)

(** An [ObjectId] is its sequence of hexadecimal digits; [toString()] prints
    them in lower case. *)
Abbreviation ObjectId := Hexadecimal.uint.

Definition oid_toString (o : ObjectId) : string := HexadecimalString.NilEmpty.string_of_uint o.

#[global] Instance ObjectId_eq_dec : EqDecision ObjectId.
Proof. solve_decision. Defined.

#[global] Instance ObjectId_countable : Countable ObjectId :=
  inj_countable oid_toString HexadecimalString.NilEmpty.uint_of_string HexadecimalString.NilEmpty.usu.

(** A body field is a string or [undefined]. *)
Definition truthy (v : option string) : bool :=
  match v with
  | Some (String _ _) => true
  | _ => false
  end.

(** [v || d] on an optional string. *)
Definition or_else (v : option string) (d : string) : string :=
  match v with
  | Some (String c s) => String c s
  | _ => d
  end.

(** [s.replace(pat, rep)] with a string pattern: the first occurrence only. *)
Definition replace_first (pat rep s : string) : string :=
  match String.index 0 pat s with
  | Some i =>
      String.substring 0 i s +:+ rep +:+
      String.substring (i + String.length pat)
                       (String.length s - (i + String.length pat)) s
  | None => s
  end.

(** JavaScript numbers.  [routes/] and [models/] only add, multiply and
    compare them and coerce body fields with [Number(...)]; the operations are
    an interface, so that nothing below depends on a law that IEEE doubles do
    not have. *)
Class JsNumber (num : Type) := {
  num_zero : num;
  num_one : num;
  num_nan : num;
  num_add : num -> num -> num;
  num_mul : num -> num -> num;
  (** [a < b] *)
  num_lt : num -> num -> bool;
  (** [a >= b] *)
  num_ge : num -> num -> bool;
  (** [Number(v)] *)
  Number : option string -> num
}.

(** A database call or the code around it either returns or throws an error
    with a message. *)
Inductive result (A : Type) : Type :=
  | Ok (a : A)
  | Throw (message : string).
Arguments Ok {A} a.
Arguments Throw {A} message.

#[global] Instance result_eq_dec `{EqDecision A} : EqDecision (result A).
Proof. solve_decision. Defined.

(** ** Documents *)

(** [req.user] as the [protect] middleware leaves it. *)
Record AuthUser := {
  u_id : ObjectId;
  u_name : option string;
  u_role : option string
}.

(** The fields of [req.file] the routes read. *)
Record File := {
  filename : string;
  path : string
}.

(** The multipart fields of a product write. *)
Record ProductBody := {
  b_name : option string;
  b_description : option string;
  b_price : option string
}.

(** The denormalized [store] snapshot of a product. *)
Record Store := {
  store_id : ObjectId;
  store_name : string
}.

Record Product (num : Type) := {
  name : option string;
  description : option string;
  price : num;
  image : option string;
  seller : ObjectId;
  store : Store;
  createdAt : Z
}.
Arguments name {num} _.
Arguments description {num} _.
Arguments price {num} _.
Arguments image {num} _.
Arguments seller {num} _.
Arguments store {num} _.
Arguments createdAt {num} _.

Record StoreInfo := {
  si_name : option string
}.

Record User := {
  email : string;
  password : string;
  user_name : string;
  role : string;
  storeInfo : option StoreInfo
}.

(** The [product] path of a cart item: the reference as stored, or what
    [populate] puts in its place (the product, or [null] when it is gone). *)
Inductive ProductRef (num : Type) : Type :=
  | Unpopulated (id : ObjectId)
  | Populated (id : ObjectId) (doc : Product num)
  | PopulatedNull.
Arguments Unpopulated {num} id.
Arguments Populated {num} id doc.
Arguments PopulatedNull {num}.

Record CartItem (num : Type) := {
  product : ProductRef num;
  quantity : num
}.
Arguments product {num} _.
Arguments quantity {num} _.

Record Cart (num : Type) := {
  cart_user : ObjectId;
  items : list (CartItem num)
}.
Arguments cart_user {num} _.
Arguments items {num} _.

(** What a request cannot control: the clock, the id the database gives a
    new document, whether its reads answer ([find_ok]) and whether its writes
    go through ([write_ok]; a write that is refused, by validation or by the
    database, throws), and the error thrown in that case. *)
Record Env := {
  now : Z;
  fresh_id : ObjectId;
  find_ok : bool;
  write_ok : bool;
  error_message : string;
  error_stack : string;
  (** [process.env.NODE_ENV === 'development'] *)
  development : bool
}.

(** The collections and the upload directory.  There is one cart per user,
    so the carts are kept by user id. *)
Record World (num : Type) := {
  products : gmap ObjectId (Product num);
  users : gmap ObjectId User;
  carts : gmap ObjectId (Cart num);
  files : gset string
}.
Arguments products {num} _.
Arguments users {num} _.
Arguments carts {num} _.
Arguments files {num} _.

Definition set_products {num} (ps : gmap ObjectId (Product num)) (w : World num) : World num :=
  {| products := ps; users := users w; carts := carts w; files := files w |}.

Definition set_users {num} (us : gmap ObjectId User) (w : World num) : World num :=
  {| products := products w; users := us; carts := carts w; files := files w |}.

Definition set_carts {num} (cs : gmap ObjectId (Cart num)) (w : World num) : World num :=
  {| products := products w; users := users w; carts := cs; files := files w |}.

(** [upload.single('image')] has written the file of the request, if any,
    into the upload directory before the route runs. *)
Definition multer_single {num} (file : option File) (w : World num) : World num :=
  match file with
  | Some f =>
      {| products := products w; users := users w; carts := carts w;
         files := files w ∪ {[ path f ]} |}
  | None => w
  end.

(** [fs.unlink(p, cb)]: the file is gone afterwards; the callback only logs
    a failure (for instance when there was no such file). *)
Definition fs_unlink {num} (p : string) (w : World num) : World num :=
  {| products := products w; users := users w; carts := carts w;
     files := files w ∖ {[ p ]} |}.

(** ** Responses *)

(** A product of a listing, after [.populate('seller', 'name')]: the document
    and the [{ _id, name }] of its seller ([null] when there is no such
    user). *)
Record Listed (num : Type) := {
  l_id : ObjectId;
  l_doc : Product num;
  l_seller : option (ObjectId * string)
}.
Arguments l_id {num} _.
Arguments l_doc {num} _.
Arguments l_seller {num} _.

Record PublicUser := {
  pu_id : ObjectId;
  pu_name : string;
  pu_email : string;
  pu_role : string;
  pu_storeInfo : option StoreInfo
}.

Inductive Json (num : Type) : Type :=
  | JMessage (message : string)
  | JMessageDetails (message : string) (details : option string)
  | JErrorDetail (message error : string) (stack : option string)
  | JProduct (id : ObjectId) (doc : Product num)
  | JNull
  | JProducts (l : list (Listed num))
  | JSession (token : string) (user : PublicUser)
  | JCart (cart : Cart num).
Arguments JMessage {num} message.
Arguments JMessageDetails {num} message details.
Arguments JErrorDetail {num} message error stack.
Arguments JProduct {num} id doc.
Arguments JNull {num}.
Arguments JProducts {num} l.
Arguments JSession {num} token user.
Arguments JCart {num} cart.

Record Response (num : Type) := {
  status : nat;
  json : Json num
}.
Arguments status {num} _.
Arguments json {num} _.

Definition respond {num} (code : nat) (j : Json num) : Response num :=
  {| status := code; json := j |}.

(** ** The [Product] model

    [models/Product.js] is not part of the sources at hand: the operations
    below are the Mongoose calls the routes make on it, over the collection
    kept in the world. *)
Section ProductModel.
Context {num : Type}.

(** An update object: a value for any of the paths of a product, the others
    being left out. *)
Record UpdateData := {
  ud_name : option string;
  ud_description : option string;
  ud_price : option num;
  ud_image : option string;
  ud_seller : option ObjectId;
  ud_store : option Store
}.

(** [new Product({...}).save()]: the document gets its timestamp and the id
    picked by the database. *)
Definition stamp (t : Z) (p : Product num) : Product num :=
  {| name := name p; description := description p; price := price p;
     image := image p; seller := seller p; store := store p; createdAt := t |}.

Definition Product_save (env : Env) (p : Product num) (w : World num)
  : result (ObjectId * Product num * World num) :=
  if write_ok env then
    match products w !! fresh_id env with
    | None =>
        let doc := stamp (now env) p in
        Ok (fresh_id env, doc, set_products (<[fresh_id env := doc]> (products w)) w)
    | Some _ => Throw (error_message env)
    end
  else Throw (error_message env).

Definition Product_findById (env : Env) (id : ObjectId) (w : World num)
  : result (option (Product num)) :=
  if find_ok env then Ok (products w !! id) else Throw (error_message env).

(** The update sets the paths the update object has a value for (a key
    whose value is [undefined] is not sent) and no other path of the
    document. *)
Definition apply_update (u : UpdateData) (p : Product num) : Product num :=
  {| name := match ud_name u with Some v => Some v | None => name p end;
     description := match ud_description u with Some v => Some v | None => description p end;
     price := match ud_price u with Some v => v | None => price p end;
     image := match ud_image u with Some v => Some v | None => image p end;
     seller := match ud_seller u with Some v => v | None => seller p end;
     store := match ud_store u with Some v => v | None => store p end;
     createdAt := createdAt p |}.

(** [Product.findByIdAndUpdate(id, updateData, { new: true })] *)
Definition Product_findByIdAndUpdate (env : Env) (id : ObjectId) (u : UpdateData)
    (w : World num) : result (option (Product num) * World num) :=
  if write_ok env then
    match products w !! id with
    | Some p =>
        let p' := apply_update u p in
        Ok (Some p', set_products (<[id := p']> (products w)) w)
    | None => Ok (None, w)
    end
  else Throw (error_message env).

(** [product.remove()] *)
Definition Product_remove (env : Env) (id : ObjectId) (w : World num)
  : result (World num) :=
  if write_ok env then Ok (set_products (delete id (products w)) w)
  else Throw (error_message env).

(** [.sort({ createdAt: -1 })]: newest first. *)
Definition newer_first (a b : ObjectId * Product num) : Prop :=
  (createdAt (snd b) <= createdAt (snd a))%Z.

#[global] Instance newer_first_dec a b : Decision (newer_first a b).
Proof. unfold newer_first. apply _. Defined.

(** [.populate('seller', 'name')] *)
Definition populate_seller (w : World num) (d : ObjectId * Product num) : Listed num :=
  {| l_id := fst d;
     l_doc := snd d;
     l_seller := (fun u => (seller (snd d), user_name u)) <$> (users w !! seller (snd d)) |}.

(** [Product.find(filter).populate('seller', 'name').sort({ createdAt: -1 })] *)
Definition Product_find (env : Env) (P : Product num -> Prop)
    `{!forall p, Decision (P p)} (w : World num) : result (list (Listed num)) :=
  if find_ok env then
    Ok (populate_seller w <$>
          merge_sort newer_first
            (filter (fun d => P (snd d)) (map_to_list (products w))))
  else Throw (error_message env).
End ProductModel.
Arguments UpdateData num : clear implicits.

(** [product.store] is the nested [{ id, name }] object.  It has no
    [toString] of its own, so [product.store.toString()] is the inherited one
    and does not print the id. *)
Definition Store_toString (s : Store) : string := "[object Object]".

(** ** [routes/products.js], the router mounted under [/api/products] *)
Module RoutesProducts.
Section Routes.
Context {num : Type} `{!JsNumber num}.
(** [rel ↦ path.join(__dirname, '..', rel)] *)
Variable path_join_parent : string -> string.

(** [router.get('/')] *)
Definition list (env : Env) (w : World num) : Response num * World num :=
  match Product_find env (fun _ => True) w with
  | Ok l => (respond 200 (JProducts l), w)
  | Throw _ => (respond 500 (JMessage "Server error"), w)
  end.

(** [router.get('/my-store')] *)
Definition my_store (env : Env) (user : AuthUser) (w : World num)
  : Response num * World num :=
  match Product_find env (fun p => store_id (store p) = u_id user) w with
  | Ok l => (respond 200 (JProducts l), w)
  | Throw _ => (respond 500 (JMessage "Server error"), w)
  end.

(** [router.post('/')] *)
Definition create (env : Env) (user : AuthUser) (body : ProductBody)
    (file : option File) (w : World num) : Response num * World num :=
  match file with
  | None => (respond 400 (JMessage "Please upload an image"), w)
  | Some f =>
      let imageUrl := "/uploads/" +:+ filename f in
      let product :=
        {| name := b_name body;
           description := b_description body;
           price := Number (b_price body);
           image := Some imageUrl;
           seller := u_id user;
           store := {| store_id := u_id user;
                       store_name := or_else (u_name user) "Unknown Seller" |};
           createdAt := now env |} in
      match Product_save env product w with
      | Ok (id, savedProduct, w') => (respond 201 (JProduct id savedProduct), w')
      | Throw msg =>
          (* catch: clean up the uploaded file, then answer *)
          let w' := fs_unlink (path f) w in
          (respond 500 (JMessage msg), w')
      end
  end.

(** [path.join(__dirname, '..', product.image.replace('/api/products', ''))] *)
Definition image_path (img : string) : string :=
  path_join_parent (replace_first "/api/products" "" img).

(** [router.put('/:id')] *)
Definition put (env : Env) (user : AuthUser) (id : ObjectId) (body : ProductBody)
    (file : option File) (w : World num) : Response num * World num :=
  match Product_findById env id w with
  | Throw _ => (respond 500 (JMessage "Server error"), w)
  | Ok None => (respond 404 (JMessage "Product not found"), w)
  | Ok (Some product) =>
      if decide (Store_toString (store product) <> oid_toString (u_id user)) then
        (respond 403 (JMessage "Not authorized"), w)
      else
        (* { name, description, price }: the price goes as the string of the
           body and is cast to a number by the update *)
        let updateData :=
          {| ud_name := b_name body;
             ud_description := b_description body;
             ud_price := (fun v => Number (Some v)) <$> b_price body;
             ud_image := None; ud_seller := None; ud_store := None |} in
        let '(updateData, w1) :=
          match file with
          | Some f =>
              let w1 :=
                if truthy (image product)
                then fs_unlink (image_path (or_else (image product) "")) w
                else w in
              ({| ud_name := ud_name updateData;
                  ud_description := ud_description updateData;
                  ud_price := ud_price updateData;
                  ud_image := Some ("/uploads/" +:+ filename f);
                  ud_seller := ud_seller updateData;
                  ud_store := ud_store updateData |}, w1)
          | None => (updateData, w)
          end in
        match Product_findByIdAndUpdate env id updateData w1 with
        | Ok (Some updatedProduct, w2) => (respond 200 (JProduct id updatedProduct), w2)
        | Ok (None, w2) => (respond 200 JNull, w2)
        | Throw _ => (respond 500 (JMessage "Server error"), w1)
        end
  end.

(** [router.delete('/:id')] *)
Definition delete (env : Env) (user : AuthUser) (id : ObjectId) (w : World num)
  : Response num * World num :=
  match Product_findById env id w with
  | Throw _ => (respond 500 (JMessage "Server error"), w)
  | Ok None => (respond 404 (JMessage "Product not found"), w)
  | Ok (Some product) =>
      if decide (Store_toString (store product) <> oid_toString (u_id user)) then
        (respond 403 (JMessage "Not authorized"), w)
      else
        let w1 :=
          if truthy (image product)
          then fs_unlink (image_path (or_else (image product) "")) w
          else w in
        match Product_remove env id w1 with
        | Ok w2 => (respond 200 (JMessage "Product removed"), w2)
        | Throw _ => (respond 500 (JMessage "Server error"), w1)
        end
  end.
End Routes.
End RoutesProducts.

(** ** The two other revisions of the products router

    The source tree keeps two further copies of the router, one after the
    other in one file.  They differ from [routes/products.js] in the creation
    route (both check the role first and answer a failure with a longer body)
    and, for the second, in the update route. *)
Module Part001A.
Section Routes.
Context {num : Type} `{!JsNumber num}.
Variable path_join_parent : string -> string.

(** [router.post('/')] *)
Definition create (env : Env) (user : AuthUser) (body : ProductBody)
    (file : option File) (w : World num) : Response num * World num :=
  if decide (u_role user <> Some "seller") then
    (respond 403 (JMessage "Only sellers can create products"), w)
  else
    match file with
    | None => (respond 400 (JMessage "Please upload an image"), w)
    | Some f =>
        let imageUrl := "/uploads/" +:+ filename f in
        let product :=
          {| name := b_name body;
             description := b_description body;
             price := Number (b_price body);
             image := Some imageUrl;
             seller := u_id user;
             store := {| store_id := u_id user;
                         store_name := or_else (u_name user) "Unknown Seller" |};
             createdAt := now env |} in
        match Product_save env product w with
        | Ok (id, savedProduct, w') => (respond 201 (JProduct id savedProduct), w')
        | Throw msg =>
            let w' := fs_unlink (path f) w in
            (respond 500
               (JErrorDetail "Error creating product" msg
                  (if development env then Some (error_stack env) else None)), w')
        end
    end.

(** [router.put('/:id')] and [router.delete('/:id')] have the text of
    [routes/products.js]. *)
Definition put := RoutesProducts.put (num:=num) path_join_parent.
Definition delete := RoutesProducts.delete (num:=num) path_join_parent.
Definition my_store := RoutesProducts.my_store (num:=num).
Definition list := RoutesProducts.list (num:=num).
End Routes.
End Part001A.

Module Part001B.
Section Routes.
Context {num : Type} `{!JsNumber num}.
Variable path_join_parent : string -> string.

(** [router.post('/')]: as in the first copy. *)
Definition create := Part001A.create (num:=num).

(** [router.put('/:id')] *)
Definition put (env : Env) (user : AuthUser) (id : ObjectId) (body : ProductBody)
    (file : option File) (w : World num) : Response num * World num :=
  (* catch: delete the uploaded file, then answer *)
  let failed (w : World num) :=
    let w' := match file with Some f => fs_unlink (path f) w | None => w end in
    (respond 500 (JMessage "Error updating product"), w') in
  match Product_findById env id w with
  | Throw _ => failed w
  | Ok None => (respond 404 (JMessage "Product not found"), w)
  | Ok (Some product) =>
      if decide (oid_toString (seller product) <> oid_toString (u_id user)) then
        (respond 403 (JMessage "Not authorized to update this product"), w)
      else
        let updateData :=
          {| ud_name := b_name body;
             ud_description := b_description body;
             ud_price := Some (Number (b_price body));
             ud_image := None; ud_seller := None; ud_store := None |} in
        let '(updateData, w1) :=
          match file with
          | Some f =>
              let w1 :=
                if truthy (image product)
                then fs_unlink (path_join_parent (or_else (image product) "")) w
                else w in
              ({| ud_name := ud_name updateData;
                  ud_description := ud_description updateData;
                  ud_price := ud_price updateData;
                  ud_image := Some ("/uploads/" +:+ filename f);
                  ud_seller := ud_seller updateData;
                  ud_store := ud_store updateData |}, w1)
          | None => (updateData, w)
          end in
        match Product_findByIdAndUpdate env id updateData w1 with
        | Ok (Some updatedProduct, w2) => (respond 200 (JProduct id updatedProduct), w2)
        | Ok (None, w2) => (respond 200 JNull, w2)
        | Throw _ => failed w1
        end
  end.

(** [router.delete('/:id')] has the text of [routes/products.js]. *)
Definition delete := RoutesProducts.delete (num:=num) path_join_parent.
Definition my_store := RoutesProducts.my_store (num:=num).
Definition list := RoutesProducts.list (num:=num).
End Routes.
End Part001B.

(** ** Strings of the authentication router *)

(** Strings are sequences of code units below 256. *)
Definition lower_char (c : ascii) : ascii :=
  let n := nat_of_ascii c in
  if ((65 <=? n) && (n <=? 90)
      || (192 <=? n) && (n <=? 222) && negb (n =? 215))%nat
  then ascii_of_nat (n + 32)
  else c.

(** [s.toLowerCase()] *)
Fixpoint toLowerCase (s : string) : string :=
  match s with
  | "" => ""
  | String c s' => String (lower_char c) (toLowerCase s')
  end.

(** The class [\s] of a regular expression. *)
Definition is_space (c : ascii) : bool :=
  let n := nat_of_ascii c in
  ((9 <=? n) && (n <=? 13) || (n =? 32) || (n =? 160))%nat.

(** The class [[^\s@]]. *)
Definition plain (c : ascii) : bool :=
  negb (is_space c) && negb (nat_of_ascii c =? 64)%nat.

Fixpoint all_plain (s : string) : bool :=
  match s with
  | "" => true
  | String c s' => plain c && all_plain s'
  end.

(** Some ['.'] of [s] is followed by at least one more character. *)
Fixpoint dot_before_end (s : string) : bool :=
  match s with
  | "" => false
  | String c s' =>
      (nat_of_ascii c =? 46)%nat && negb (String.length s' =? 0)%nat || dot_before_end s'
  end.

(** [/^[^\s@]+@[^\s@]+\.[^\s@]+$/.test(s)]: a non-empty plain part, the
    first ['@'], then plain characters among which a ['.'] that is neither
    the first nor the last of them. *)
Definition emailRegex_test (s : string) : bool :=
  match String.index 0 "@" s with
  | Some i =>
      let local := String.substring 0 i s in
      let domain := String.substring (i + 1) (String.length s - (i + 1)) s in
      negb (String.length local =? 0)%nat && all_plain local && all_plain domain
      && match domain with
         | "" => false
         | String _ d => dot_before_end d
         end
  | None => false
  end.

(** ** The [User] model *)
Section UserModel.
Context {num : Type}.
(** The pre-save hook that replaces the password by its hash. *)
Variable hashPassword : string -> string.

(** Modelled from the spec: [models/User.js] is not part of the sources at
    hand.  The spec gives the email as the identity of a user, unique and
    case-normalized: the schema lower-cases the [email] path, of a document
    that is saved and of a filter alike, and the collection has a unique
    index on it. *)
Definition User_findOne (env : Env) (q : string) (w : World num)
  : result (option (ObjectId * User)) :=
  if find_ok env then
    Ok (snd <$> list_find (fun d : ObjectId * User => email (snd d) = toLowerCase q)
                          (map_to_list (users w)))
  else Throw (error_message env).

(** Modelled from the spec: [user.save()] on a new user, under the same
    schema: the email is stored in lower case, a second document with an
    email already stored is refused by the unique index. *)
Definition User_save (env : Env) (u : User) (w : World num)
  : result (ObjectId * User * World num) :=
  if write_ok env then
    let doc := {| email := toLowerCase (email u);
                  password := hashPassword (password u);
                  user_name := user_name u;
                  role := role u;
                  storeInfo := storeInfo u |} in
    match users w !! fresh_id env,
          list_find (fun d : ObjectId * User => email (snd d) = email doc)
                    (map_to_list (users w)) with
    | None, None =>
        Ok (fresh_id env, doc, set_users (<[fresh_id env := doc]> (users w)) w)
    | _, _ => Throw (error_message env)
    end
  else Throw (error_message env).
End UserModel.

(** ** The authentication router *)
Module RoutesAuth.
Section Routes.
Context {num : Type}.
Variable hashPassword : string -> string.
(** [user.comparePassword(candidate)] *)
Variable comparePassword : User -> string -> result bool.
(** [jwt.sign({ id }, process.env.JWT_SECRET, { expiresIn: '30d' })], at a
    given time. *)
Variable jwt_sign : Z -> ObjectId -> string.

Record RegisterBody := {
  r_email : option string;
  r_password : option string;
  r_name : option string;
  r_role : option string;
  r_storeInfo : option StoreInfo
}.

Record LoginBody := {
  l_email : option string;
  l_password : option string
}.

Definition public (id : ObjectId) (u : User) : PublicUser :=
  {| pu_id := id; pu_name := user_name u; pu_email := email u;
     pu_role := role u; pu_storeInfo := storeInfo u |}.

(** [router.post('/register')] *)
Definition register (env : Env) (body : RegisterBody) (w : World num)
  : Response num * World num :=
  if negb (truthy (r_email body)) || negb (truthy (r_password body))
     || negb (truthy (r_name body)) then
    (respond 400 (JMessage "Please provide all required fields"), w)
  else
    let email := or_else (r_email body) "" in
    let password := or_else (r_password body) "" in
    let name := or_else (r_name body) "" in
    if negb (emailRegex_test email) then
      (respond 400 (JMessage "Please provide a valid email address"), w)
    else if (String.length password <? 6)%nat then
      (respond 400 (JMessage "Password must be at least 6 characters long"), w)
    else
      match User_findOne env email w with
      | Throw _ => (respond 500 (JMessage "Server error during registration"), w)
      | Ok (Some _) => (respond 400 (JMessage "User already exists"), w)
      | Ok None =>
          match r_role body with
          | Some role =>
              if negb (bool_decide (role = "user") || bool_decide (role = "seller")) then
                (respond 400 (JMessage "Invalid role specified"), w)
              else if bool_decide (role = "seller")
                      && negb (truthy (r_storeInfo body ≫= si_name)) then
                (respond 400 (JMessage "Store information is required for sellers"), w)
              else
                let user :=
                  {| email := email; password := password; user_name := name;
                     role := role;
                     storeInfo := if bool_decide (role = "seller")
                                  then r_storeInfo body else None |} in
                match User_save hashPassword env user w with
                | Throw _ =>
                    (respond 500 (JMessage "Server error during registration"), w)
                | Ok (uid, saved, w') =>
                    let token := jwt_sign (now env) uid in
                    (respond 201 (JSession token (public uid saved)), w')
                end
          | None => (respond 400 (JMessage "Invalid role specified"), w)
          end
      end.

(** [router.post('/login')] *)
Definition login (env : Env) (body : LoginBody) (w : World num)
  : Response num * World num :=
  if negb (truthy (l_email body)) || negb (truthy (l_password body)) then
    (respond 400 (JMessage "Please provide email and password"), w)
  else
    let email := or_else (l_email body) "" in
    let password := or_else (l_password body) "" in
    match User_findOne env (toLowerCase email) w with
    | Throw msg =>
        (respond 500
           (JMessageDetails "Server error during login"
              (if development env then Some msg else None)), w)
    | Ok None => (respond 400 (JMessage "Invalid credentials"), w)
    | Ok (Some (uid, user)) =>
        match comparePassword user password with
        | Throw _ => (respond 500 (JMessage "Error verifying credentials"), w)
        | Ok false => (respond 400 (JMessage "Invalid credentials"), w)
        | Ok true =>
            let token := jwt_sign (now env) uid in
            (respond 200 (JSession token (public uid user)), w)
        end
    end.
End Routes.
End RoutesAuth.

(** ** The [Cart] model *)
Module ModelsCart.
Section Model.
Context {num : Type} `{!JsNumber num}.

(** [cartItemSchema]: [quantity: { type: Number, required: true, min: 1 }] *)
Definition cartItem_valid (item : CartItem num) : bool :=
  num_ge (quantity item) num_one.

(** Validation of a cart before it is saved: every item of [items]. *)
Definition Cart_validate (c : Cart num) : bool :=
  forallb cartItem_valid (items c).

(** [item.product.price]: the price of the populated product; [undefined]
    (as a number, [NaN]) on a bare reference; a [TypeError] on [null]. *)
Definition item_price (item : CartItem num) : result num :=
  match product item with
  | Populated _ doc => Ok (price doc)
  | Unpopulated _ => Ok num_nan
  | PopulatedNull => Throw "Cannot read properties of null (reading 'price')"
  end.

(** [cartSchema.methods.getTotal] *)
Definition getTotal (c : Cart num) : result num :=
  fold_left
    (fun total item =>
       match total with
       | Ok total =>
           match item_price item with
           | Ok p => Ok (num_add total (num_mul p (quantity item)))
           | Throw e => Throw e
           end
       | Throw e => Throw e
       end)
    (items c) (Ok num_zero).

(** [cart.save()]: validation, then the write; the items are stored with
    their references. *)
Definition Cart_save (env : Env) (c : Cart num) (w : World num) : result (World num) :=
  if Cart_validate c then
    if write_ok env then Ok (set_carts (<[cart_user c := c]> (carts w)) w)
    else Throw (error_message env)
  else Throw "Cart validation failed".

(** [.populate('items.product')] against the products as they are now. *)
Definition populate_item (w : World num) (item : CartItem num) : CartItem num :=
  match product item with
  | Unpopulated id =>
      {| product := match products w !! id with
                    | Some doc => Populated id doc
                    | None => PopulatedNull
                    end;
         quantity := quantity item |}
  | _ => item
  end.

Definition Cart_populate (w : World num) (c : Cart num) : Cart num :=
  {| cart_user := cart_user c; items := populate_item w <$> items c |}.
End Model.
End ModelsCart.

(** ** The cart ledger *)
Module RoutesCart.
Import ModelsCart.
Section Routes.
Context {num : Type} `{!JsNumber num}.

Definition refers (pid : ObjectId) (item : CartItem num) : bool :=
  match product item with
  | Unpopulated id | Populated id _ => bool_decide (id = pid)
  | PopulatedNull => false
  end.

Definition own_cart (user : AuthUser) (w : World num) : Cart num :=
  match carts w !! u_id user with
  | Some c => c
  | None => {| cart_user := u_id user; items := [] |}
  end.

(** Modelled from the spec: [routes/cart.js] is not part of the sources at
    hand.  [get(userId)] returns the cart of the user, creating an empty one
    if there is none, with the product of each line item populated. *)
Definition get (env : Env) (user : AuthUser) (w : World num)
  : Response num * World num :=
  if find_ok env then
    match carts w !! u_id user with
    | Some c => (respond 200 (JCart (Cart_populate w c)), w)
    | None =>
        let c := {| cart_user := u_id user; items := [] |} in
        match Cart_save env c w with
        | Ok w' => (respond 200 (JCart c), w')
        | Throw msg => (respond 500 (JMessage msg), w)
        end
    end
  else (respond 500 (JMessage (error_message env)), w).

(** Modelled from the spec: [addOrUpdateItem(userId, productId, quantity)]
    rejects a quantity below 1 with a validation error; if the product is
    already in the cart its quantity is replaced, otherwise a line item is
    appended.  The cart is stored with [cart.save()]. *)
Definition addOrUpdateItem (env : Env) (user : AuthUser) (pid : ObjectId)
    (q : num) (w : World num) : Response num * World num :=
  if num_lt q num_one then
    (respond 400 (JMessage "Quantity must be at least 1"), w)
  else if find_ok env then
    let c := own_cart user w in
    let items' :=
      if existsb (refers pid) (items c)
      then (fun item => if refers pid item
                        then {| product := product item; quantity := q |}
                        else item) <$> items c
      else (items c ++ [ {| product := Unpopulated pid; quantity := q |} ])%list in
    let c' := {| cart_user := u_id user; items := items' |} in
    match Cart_save env c' w with
    | Ok w' => (respond 200 (JCart (Cart_populate w' c')), w')
    | Throw msg => (respond 400 (JMessage msg), w)
    end
  else (respond 500 (JMessage (error_message env)), w).

(** Modelled from the spec: [removeItem(userId, productId)] is idempotent;
    removing an item that is not in the cart succeeds and changes nothing. *)
Definition removeItem (env : Env) (user : AuthUser) (pid : ObjectId)
    (w : World num) : Response num * World num :=
  if find_ok env then
    let c := own_cart user w in
    let c' := {| cart_user := u_id user;
                 items := filter (fun item => refers pid item = false) (items c) |} in
    match Cart_save env c' w with
    | Ok w' => (respond 200 (JCart (Cart_populate w' c')), w')
    | Throw msg => (respond 500 (JMessage msg), w)
    end
  else (respond 500 (JMessage (error_message env)), w).
End Routes.
End RoutesCart.

(** ** The server as a transition system *)

(** The three copies of the products router. *)
Inductive revision := Mounted | CopyA | CopyB.

Section Server.
Context {num : Type} `{!JsNumber num}.
Variable path_join_parent : string -> string.
Variable hashPassword : string -> string.
Variable comparePassword : User -> string -> result bool.
Variable jwt_sign : Z -> ObjectId -> string.

Definition products_create (r : revision) :=
  match r with
  | Mounted => RoutesProducts.create (num:=num)
  | CopyA => Part001A.create
  | CopyB => Part001B.create
  end.

Definition products_put (r : revision) :=
  match r with
  | Mounted => RoutesProducts.put (num:=num) path_join_parent
  | CopyA => Part001A.put path_join_parent
  | CopyB => Part001B.put path_join_parent
  end.

Definition products_delete (r : revision) :=
  match r with
  | Mounted => RoutesProducts.delete (num:=num) path_join_parent
  | CopyA => Part001A.delete path_join_parent
  | CopyB => Part001B.delete path_join_parent
  end.

(** Before anything was registered, listed or uploaded. *)
Definition initial : World num :=
  {| products := ∅; users := ∅; carts := ∅; files := ∅ |}.

(** One request served.  The routes that take an image run behind
    [upload.single('image')]. *)
Inductive step : World num -> World num -> Prop :=
  | step_create r env user body file w :
      step w (snd (products_create r env user body file (multer_single file w)))
  | step_put r env user id body file w :
      step w (snd (products_put r env user id body file (multer_single file w)))
  | step_delete r env user id w :
      step w (snd (products_delete r env user id w))
  | step_register env body w :
      step w (snd (RoutesAuth.register hashPassword jwt_sign env body w))
  | step_login env body w :
      step w (snd (RoutesAuth.login comparePassword jwt_sign env body w))
  | step_cart_get env user w :
      step w (snd (RoutesCart.get env user w))
  | step_cart_add env user pid q w :
      step w (snd (RoutesCart.addOrUpdateItem env user pid q w))
  | step_cart_remove env user pid w :
      step w (snd (RoutesCart.removeItem env user pid w)).

Definition reachable (w : World num) : Prop := rtc step initial w.
End Server.

(** ** An instance for worked examples

    Whole amounts, with [None] for [NaN]; [Number] reads an unsigned decimal
    numeral. *)
Module Amount.
Definition t : Type := option Z.

Definition lift2 (f : Z -> Z -> Z) (a b : t) : t :=
  match a, b with
  | Some x, Some y => Some (f x y)
  | _, _ => None
  end.

Definition cmp (f : Z -> Z -> bool) (a b : t) : bool :=
  match a, b with
  | Some x, Some y => f x y
  | _, _ => false
  end.

Definition of_string (v : option string) : t :=
  match v with
  | None => None
  | Some "" => Some 0%Z
  | Some s => Z.of_uint <$> DecimalString.NilEmpty.uint_of_string s
  end.

#[global] Instance number : JsNumber t := {|
  num_zero := Some 0%Z;
  num_one := Some 1%Z;
  num_nan := None;
  num_add := lift2 Z.add;
  num_mul := lift2 Z.mul;
  num_lt := cmp Z.ltb;
  num_ge := cmp Z.geb;
  Number := of_string
|}.
End Amount.

(** The server directory of the examples. *)
Definition under_app (rel : string) : string := "/srv/market" +:+ rel.

(** The answer to a write that is refused: 403, the collection of products
    as it was in [w], the record [p] still stored under [id] and still in
    the listing of all products. *)
Definition refused_and_unchanged {num} (w : World num) (id : ObjectId)
    (p : Product num) (res : Response num * World num) : Prop :=
  status (fst res) = 403
  /\ products (snd res) = products w
  /\ products (snd res) !! id = Some p
  /\ forall env, find_ok env = true ->
       exists l, fst (RoutesProducts.list env (snd res)) = respond 200 (JProducts l)
                 /\ populate_seller (snd res) (id, p) ∈ l.

(** The total as the spec words it: the sum of [n] terms [t 0], ..., [t (n-1)],
    by recursion on the number of terms. *)
Fixpoint sum_upto {num} `{!JsNumber num} (t : nat -> num) (n : nat) : num :=
  match n with
  | 0 => num_zero
  | S k => num_add (sum_upto t k) (t k)
  end.

(** The amount of a stored line item at the prices of [w]: the price of the
    product it refers to, as stored now, times its quantity; none if that
    product is gone. *)
Definition line_amount {num} `{!JsNumber num} (w : World num) (item : CartItem num)
  : option num :=
  match product item with
  | Unpopulated id =>
      (fun doc => num_mul (price doc) (quantity item)) <$> products w !! id
  | _ => None
  end.

(** The store snapshot of every product carries the id of its seller. *)
Definition store_is_seller {num} (w : World num) : Prop :=
  forall id p, products w !! id = Some p -> store_id (store p) = seller p.

(** Every line item of every stored cart passes the [min: 1] validator. *)
Definition quantities_valid {num} `{!JsNumber num} (w : World num) : Prop :=
  forall uid c, carts w !! uid = Some c ->
    Forall (fun item => num_ge (quantity item) num_one = true) (items c).

(** The order of a listing: newest first. *)
Definition listed_newer_first {num} (a b : Listed num) : Prop :=
  (createdAt (l_doc b) <= createdAt (l_doc a))%Z.

(** ** A worked scenario

    Seller [s1] and buyer [b1] register; [s1] uploads an image and creates
    the product "Mug"; [b1] puts two mugs into the cart; the price of the mug
    is then changed through the update route of the second copy of the
    router. *)
Module Scenario.
Definition oid (s : string) : ObjectId :=
  default Nil (HexadecimalString.NilEmpty.uint_of_string s).

(** Stand-ins for the password hash and the token signature. *)
Definition hash (s : string) : string := "#" +:+ s.

Definition compare (u : User) (candidate : string) : result bool :=
  Ok (bool_decide (password u = hash candidate)).

Definition sign (t : Z) (id : ObjectId) : string := "jwt:" +:+ oid_toString id.

Definition at_time (t : Z) (id : ObjectId) : Env :=
  {| now := t; fresh_id := id; find_ok := true; write_ok := true;
     error_message := "E11000 duplicate key error"; error_stack := "";
     development := false |}.

(** The same, with the database refusing every write. *)
Definition write_down (t : Z) (id : ObjectId) : Env :=
  {| now := t; fresh_id := id; find_ok := true; write_ok := false;
     error_message := "connection closed"; error_stack := "";
     development := false |}.

Definition s1 : AuthUser :=
  {| u_id := oid "650000000000000000000001";
     u_name := Some "s1"; u_role := Some "seller" |}.

Definition b1 : AuthUser :=
  {| u_id := oid "650000000000000000000002";
     u_name := Some "b1"; u_role := Some "user" |}.

Definition s1_form : RoutesAuth.RegisterBody :=
  {| RoutesAuth.r_email := Some "S1@Example.com";
     RoutesAuth.r_password := Some "pw123456";
     RoutesAuth.r_name := Some "s1";
     RoutesAuth.r_role := Some "seller";
     RoutesAuth.r_storeInfo := Some {| si_name := Some "S1 Store" |} |}.

Definition b1_form : RoutesAuth.RegisterBody :=
  {| RoutesAuth.r_email := Some "b1@example.com";
     RoutesAuth.r_password := Some "pw654321";
     RoutesAuth.r_name := Some "b1";
     RoutesAuth.r_role := Some "user";
     RoutesAuth.r_storeInfo := None |}.

Definition s1_registered : World Amount.t :=
  snd (RoutesAuth.register hash sign (at_time 1699999998000 (u_id s1)) s1_form initial).

Definition registered : World Amount.t :=
  snd (RoutesAuth.register hash sign (at_time 1699999999000 (u_id b1)) b1_form
         s1_registered).

Definition mug_id : ObjectId := oid "6500000000000000000000a1".

Definition mug_png : File :=
  {| filename := "1700000000000-123456789.png";
     path := under_app "/uploads/1700000000000-123456789.png" |}.

Definition mug_fields : ProductBody :=
  {| b_name := Some "Mug"; b_description := Some "A mug"; b_price := Some "999" |}.

Definition mug : Product Amount.t :=
  {| name := Some "Mug"; description := Some "A mug"; price := Some 999%Z;
     image := Some "/uploads/1700000000000-123456789.png";
     seller := u_id s1;
     store := {| store_id := u_id s1; store_name := "s1" |};
     createdAt := 1700000000000 |}.

(** The world once [s1] has created the mug. *)
Definition listed : World Amount.t :=
  snd (RoutesProducts.create (at_time 1700000000000 mug_id) s1 mug_fields
         (Some mug_png) (multer_single (Some mug_png) registered)).

(** ... and [b1] has put two mugs into the cart. *)
Definition with_cart : World Amount.t :=
  snd (RoutesCart.addOrUpdateItem (at_time 1700000001000 mug_id) b1 mug_id
         (Some 2%Z) listed).

Definition b1_cart : Cart Amount.t :=
  {| cart_user := u_id b1;
     items := [ {| product := Unpopulated mug_id; quantity := Some 2%Z |} ] |}.

Definition new_price : ProductBody :=
  {| b_name := Some "Mug"; b_description := Some "A mug"; b_price := Some "1200" |}.

(** ... and [s1] has changed the price to 1200. *)
Definition repriced : World Amount.t :=
  snd (Part001B.put under_app (at_time 1700000002000 mug_id) s1 mug_id new_price
         None (multer_single None with_cart)).
End Scenario.

(** A second image, for the update of the mug. *)
Module Episode.
Import Scenario.
Definition mug2_png : File :=
  {| filename := "1700000009000-987654321.png";
     path := under_app "/uploads/1700000009000-987654321.png" |}.

(** The world once [s1] has replaced the image of the mug, through the second
    copy of the router. *)
Definition reimaged : World Amount.t :=
  snd (Part001B.put under_app (at_time 1700000009000 mug_id) s1 mug_id new_price
         (Some mug2_png) (multer_single (Some mug2_png) listed)).
End Episode.

(** * Properties *)

(** ** Object ids and their printed form *)

Lemma oid_toString_inj (a b : ObjectId) : oid_toString a = oid_toString b -> a = b.
Proof.
  intros E. apply (inj Some).
  rewrite <- (HexadecimalString.NilEmpty.usu a), <- (HexadecimalString.NilEmpty.usu b).
  unfold oid_toString in E. by rewrite E.
Qed.

Lemma Store_toString_not_an_id (s : Store) (o : ObjectId) :
  Store_toString s <> oid_toString o.
Proof. destruct o; cbv; discriminate. Qed.

(** ** The ownership check of [routes/products.js] *)

Section MountedOwnership.
Context {num : Type} `{!JsNumber num}.
Variable path_join_parent : string -> string.

(** Whoever asks, an existing product is answered with 403 and nothing
    changes. *)
Lemma mounted_put_403 env user id body file (w : World num) p :
  find_ok env = true -> products w !! id = Some p ->
  RoutesProducts.put path_join_parent env user id body file w
  = (respond 403 (JMessage "Not authorized"), w).
Proof.
  intros Hf Hp. unfold RoutesProducts.put, Product_findById. rewrite Hf, Hp.
  destruct (decide _) as [_|E]; [done|].
  exfalso. apply E, Store_toString_not_an_id.
Qed.

Lemma mounted_delete_403 env user id (w : World num) p :
  find_ok env = true -> products w !! id = Some p ->
  RoutesProducts.delete path_join_parent env user id w
  = (respond 403 (JMessage "Not authorized"), w).
Proof.
  intros Hf Hp. unfold RoutesProducts.delete, Product_findById. rewrite Hf, Hp.
  destruct (decide _) as [_|E]; [done|].
  exfalso. apply E, Store_toString_not_an_id.
Qed.
End MountedOwnership.

(** C1. The update and delete routes are to reject exactly the users that are
    not the seller of the product.  In [routes/products.js] the routes compare
    [product.store.toString()], not the seller reference, with the id of the
    user: the seller [s1] of the mug is answered 403 "Not authorized" by both
    routes and the mug stays as it is. *)
Example mounted_routes_reject_the_seller :
  products Scenario.listed !! Scenario.mug_id = Some Scenario.mug
  /\ seller Scenario.mug = u_id Scenario.s1
  /\ RoutesProducts.put under_app (Scenario.at_time 1700000001000 Scenario.mug_id)
       Scenario.s1 Scenario.mug_id
       {| b_name := Some "Mug"; b_description := Some "A mug"; b_price := Some "1200" |}
       None Scenario.listed
     = (respond 403 (JMessage "Not authorized"), Scenario.listed)
  /\ RoutesProducts.delete under_app (Scenario.at_time 1700000001000 Scenario.mug_id)
       Scenario.s1 Scenario.mug_id Scenario.listed
     = (respond 403 (JMessage "Not authorized"), Scenario.listed).
Proof.
  assert (H : products Scenario.listed !! Scenario.mug_id = Some Scenario.mug)
    by (vm_compute; reflexivity).
  split; [exact H|]. split; [reflexivity|]. split.
  - by apply mounted_put_403 with (p := Scenario.mug).
  - by apply mounted_delete_403 with (p := Scenario.mug).
Qed.

(** C2. A user whose role is not ['seller'] is to be refused by the creation
    route.  [routes/products.js] does not look at the role: the buyer [b1]
    gets 201 and a product whose seller is [b1], where the two other copies
    of the router answer 403 and store nothing. *)
Example mounted_create_ignores_the_role :
  let env := Scenario.at_time 1700000002000 (Scenario.oid "6500000000000000000000a2") in
  let w := multer_single (Some Scenario.mug_png) Scenario.registered in
  u_role Scenario.b1 <> Some "seller"
  /\ (exists doc,
        fst (RoutesProducts.create env Scenario.b1 Scenario.mug_fields
               (Some Scenario.mug_png) w)
        = respond 201 (JProduct (fresh_id env) doc)
        /\ seller doc = u_id Scenario.b1
        /\ products (snd (RoutesProducts.create env Scenario.b1 Scenario.mug_fields
                            (Some Scenario.mug_png) w)) !! fresh_id env = Some doc)
  /\ Part001A.create env Scenario.b1 Scenario.mug_fields (Some Scenario.mug_png) w
     = (respond 403 (JMessage "Only sellers can create products"), w)
  /\ Part001B.create env Scenario.b1 Scenario.mug_fields (Some Scenario.mug_png) w
     = (respond 403 (JMessage "Only sellers can create products"), w).
Proof.
  cbv zeta. split; [discriminate|]. split.
  - eexists. split; [vm_compute; reflexivity|]. split; vm_compute; reflexivity.
  - split; reflexivity.
Qed.

(** ** What the write routes do to the products *)

(** Splits the decisions of a route one after the other. *)
Ltac route_cases :=
  repeat (simplify_eq/=; try done;
          match goal with
          | |- context [match ?x with _ => _ end] => destruct x eqn:?
          | |- context [decide ?P] => destruct (decide P)
          | H : context [match ?x with _ => _ end] |- _ => destruct x eqn:?
          end);
  simplify_eq/=; try done.

Section ProductWrites.
Context {num : Type} `{!JsNumber num}.
Variable path_join_parent : string -> string.

Lemma products_multer_single file (w : World num) :
  products (multer_single file w) = products w.
Proof. by destruct file. Qed.

Lemma copyB_put_403 env user id body file (w : World num) p :
  find_ok env = true -> products w !! id = Some p -> seller p <> u_id user ->
  Part001B.put path_join_parent env user id body file w
  = (respond 403 (JMessage "Not authorized to update this product"), w).
Proof.
  intros Hf Hp Hs. unfold Part001B.put, Product_findById. rewrite Hf, Hp.
  destruct (decide _) as [_|E]; [done|].
  exfalso. apply Hs, oid_toString_inj. by destruct (decide (oid_toString (seller p) = oid_toString (u_id user))).
Qed.

(** An update leaves the collection as it is or rewrites the one document
    with an update object that has no value for [seller] and [store]. *)
Lemma put_products r env user id body file (w : World num) :
  let w' := snd (products_put path_join_parent r env user id body file w) in
  products w' = products w
  \/ exists p u, products w !! id = Some p
                 /\ ud_seller u = None /\ ud_store u = None
                 /\ products w' = <[id := apply_update u p]> (products w).
Proof.
  destruct r; cbn;
    unfold Part001A.put, RoutesProducts.put, Part001B.put,
           Product_findById, Product_findByIdAndUpdate;
    route_cases; eauto;
    match goal with
    | |- <[_ := apply_update ?u ?p]> _ = _ \/ _ => right; exists p, u; by split_and!
    end.
Qed.

(** A deletion leaves the collection as it is or removes the one document. *)
Lemma delete_products r env user id (w : World num) :
  let w' := snd (products_delete path_join_parent r env user id w) in
  products w' = products w \/ products w' = delete id (products w).
Proof.
  destruct r; cbn;
    unfold Part001A.delete, Part001B.delete, RoutesProducts.delete,
           Product_findById, Product_remove;
    route_cases; eauto.
Qed.

(** A creation leaves the collection as it is or adds one document, whose
    seller and store id are both the id of the user. *)
Lemma create_products r env user body file (w : World num) :
  let w' := snd (products_create r env user body file w) in
  products w' = products w
  \/ exists p, products w !! fresh_id env = None
               /\ seller p = u_id user /\ store_id (store p) = u_id user
               /\ products w' = <[fresh_id env := p]> (products w).
Proof.
  destruct r; cbn;
    unfold Part001B.create, Part001A.create, RoutesProducts.create, Product_save;
    route_cases; eauto;
    match goal with
    | |- <[_ := ?d]> _ = _ \/ _ => right; exists d; by split_and!
    end.
Qed.

(** C7. Whatever the outcome of an update request, in any of the three copies
    of the router, every product is still there afterwards with the seller
    reference it had before (and its store snapshot and creation time): the
    update sets name, description, price and image only. *)
Theorem update_keeps_the_seller r env user id body file (w : World num) id' p :
  products w !! id' = Some p ->
  exists p',
    products (snd (products_put path_join_parent r env user id body file
                     (multer_single file w))) !! id' = Some p'
    /\ seller p' = seller p /\ store p' = store p /\ createdAt p' = createdAt p.
Proof.
  intros Hp.
  destruct (put_products r env user id body file (multer_single file w))
    as [E|(p0 & u & Hp0 & Hs & Hst & E)]; cbv zeta in E; rewrite E;
    rewrite products_multer_single in *.
  - eauto.
  - destruct (decide (id = id')) as [->|Hne].
    + rewrite lookup_insert_eq. simplify_eq.
      eexists. split; [done|]. unfold apply_update. cbn. by rewrite Hs, Hst.
    + rewrite lookup_insert_ne by done. eauto.
Qed.

(** Products of a listing: the route answers 200 with every stored product,
    populated. *)
Lemma list_has env (w : World num) id p :
  find_ok env = true -> products w !! id = Some p ->
  exists l, fst (RoutesProducts.list env w) = respond 200 (JProducts l)
            /\ populate_seller w (id, p) ∈ l.
Proof.
  intros Hf Hp. unfold RoutesProducts.list, Product_find. rewrite Hf. cbn.
  eexists. split; [done|].
  apply list_elem_of_fmap_2. rewrite merge_sort_Permutation.
  apply list_elem_of_filter. split; [done|]. by apply elem_of_map_to_list.
Qed.

(** C8. When a user who is not the seller of an existing product asks for its
    update or deletion (and the database answers the lookup), each copy of the
    router answers 403 and the product record is what it was: same fields,
    same image reference, and still in the listing of all products. *)
Theorem non_owner_is_refused_and_record_stays
    r env user id body file (w : World num) p :
  find_ok env = true -> products w !! id = Some p -> seller p <> u_id user ->
  refused_and_unchanged w id p
    (products_put path_join_parent r env user id body file (multer_single file w))
  /\ refused_and_unchanged w id p
       (products_delete path_join_parent r env user id w).
Proof.
  intros Hf Hp Hs.
  assert (Hp' : products (multer_single file w) !! id = Some p)
    by by rewrite products_multer_single.
  assert (forall res,
    res = products_put path_join_parent r env user id body file (multer_single file w)
    \/ res = products_delete path_join_parent r env user id w ->
    refused_and_unchanged w id p res) as Hboth; [|split; apply Hboth; auto].
  intros res Hres.
  assert (status (fst res) = 403 /\ products (snd res) = products w) as [H403 Hsame].
  { destruct Hres as [-> | ->]; destruct r; cbn;
      unfold Part001A.put, Part001A.delete, Part001B.delete;
      rewrite ?(mounted_put_403 _ _ _ _ _ _ _ p), ?(mounted_delete_403 _ _ _ _ _ p),
              ?(copyB_put_403 _ _ _ _ _ _ p) by done;
      cbn; by rewrite ?products_multer_single. }
  split; [done|]. split; [done|]. split; [by rewrite Hsame|].
  intros env' Hf'. apply list_has; [done|]. by rewrite Hsame.
Qed.

(** C3. When the image of a creation request has been stored and the save of
    the product then fails, the route (in each copy of the router; the two
    copies be asked by a seller, as they check the role first) answers 500
    having deleted the file: the world is the one before the request, less
    any file of that name. *)
Theorem failed_create_removes_the_upload r env user body f (w : World num) :
  r = Mounted \/ u_role user = Some "seller" ->
  (forall p, Product_save env p (multer_single (Some f) w) = Throw (error_message env)) ->
  forall res,
    res = products_create r env user body (Some f) (multer_single (Some f) w) ->
    status (fst res) = 500
    /\ (path f ∉ files (snd res))
    /\ snd res = fs_unlink (path f) w.
Proof using Type.
  clear path_join_parent.
  intros Hr Hsave res ->.
  assert (Hw : fs_unlink (path f) (multer_single (Some f) w) = fs_unlink (path f) w).
  { unfold fs_unlink, multer_single. cbn. f_equal.
    apply set_eq. intros x.
    rewrite !elem_of_difference, elem_of_union. tauto. }
  assert (Hgone : path f ∉ files (fs_unlink (path f) w)).
  { unfold fs_unlink. cbn. rewrite elem_of_difference, elem_of_singleton. tauto. }
  destruct r;
    unfold products_create, Part001B.create, Part001A.create, RoutesProducts.create.
  - by rewrite Hsave, Hw.
  - destruct Hr as [?|Hr]; [done|]. rewrite Hr.
    destruct (decide _) as [?|_]; [done|]. by rewrite Hsave, Hw.
  - destruct Hr as [?|Hr]; [done|]. rewrite Hr.
    destruct (decide _) as [?|_]; [done|]. by rewrite Hsave, Hw.
Qed.
End ProductWrites.

(** ** Invariants of the server *)

Section Invariants.
Context {num : Type} `{!JsNumber num}.
Variable path_join_parent : string -> string.
Variable hashPassword : string -> string.
Variable comparePassword : User -> string -> result bool.
Variable jwt_sign : Z -> ObjectId -> string.

Local Abbreviation step := (step path_join_parent hashPassword comparePassword jwt_sign).
Local Abbreviation reachable :=
  (reachable path_join_parent hashPassword comparePassword jwt_sign).

Lemma register_frame env body (w : World num) :
  let w' := snd (RoutesAuth.register hashPassword jwt_sign env body w) in
  products w' = products w /\ carts w' = carts w /\ files w' = files w.
Proof.
  unfold RoutesAuth.register, User_findOne, User_save. route_cases.
Qed.

Lemma login_frame env body (w : World num) :
  snd (RoutesAuth.login comparePassword jwt_sign env body w) = w.
Proof.
  unfold RoutesAuth.login, User_findOne. route_cases.
Qed.

(** A cart route leaves the carts as they are or stores one cart that has
    passed validation; it never touches the products. *)
Lemma cart_routes_frame (w w' : World num) :
  (exists env user, w' = snd (RoutesCart.get env user w))
  \/ (exists env user pid q, w' = snd (RoutesCart.addOrUpdateItem env user pid q w))
  \/ (exists env user pid, w' = snd (RoutesCart.removeItem env user pid w)) ->
  products w' = products w
  /\ (carts w' = carts w
      \/ exists c, ModelsCart.Cart_validate c = true
                   /\ carts w' = <[cart_user c := c]> (carts w)).
Proof.
  intros [(env & user & ->) | [(env & user & pid & q & ->) | (env & user & pid & ->)]];
    unfold RoutesCart.get, RoutesCart.addOrUpdateItem, RoutesCart.removeItem,
           ModelsCart.Cart_save;
    route_cases; eauto;
    (split; [done|]; right;
     match goal with |- context [<[_ := ?c]> _] => exists c end;
     split; [first [eassumption | reflexivity] | reflexivity]).
Qed.

Lemma products_routes_carts r env user id body file (w : World num) :
  carts (snd (products_create r env user body file (multer_single file w))) = carts w
  /\ carts (snd (products_put path_join_parent r env user id body file
                   (multer_single file w))) = carts w
  /\ carts (snd (products_delete path_join_parent r env user id w)) = carts w.
Proof.
  split_and!; destruct r; cbn;
    unfold Part001B.create, Part001A.create, RoutesProducts.create, Product_save,
           Part001A.put, Part001B.put, RoutesProducts.put,
           Part001A.delete, Part001B.delete, RoutesProducts.delete,
           Product_findById, Product_findByIdAndUpdate, Product_remove;
    destruct file; route_cases.
Qed.

Lemma step_store_is_seller (w w' : World num) :
  step w w' -> store_is_seller w -> store_is_seller w'.
Proof.
  intros Hstep Hinv id' p'. destruct Hstep.
  - destruct (create_products r env user body file (multer_single file w))
      as [E|(p & Hnew & Hs & Hst & E)]; cbv zeta in E; rewrite E;
      rewrite products_multer_single in *; [apply Hinv|].
    intros [[_ <-]|[_ ?]]%lookup_insert_Some; [congruence|eauto].
  - destruct (put_products path_join_parent r env user id body file
                (multer_single file w))
      as [E|(p & u & Hp & Hs & Hst & E)]; cbv zeta in E; rewrite E;
      rewrite products_multer_single in *; [apply Hinv|].
    intros [[_ <-]|[_ ?]]%lookup_insert_Some; [cbn; rewrite Hs, Hst; eauto|eauto].
  - destruct (delete_products path_join_parent r env user id w) as [E|E];
      cbv zeta in E; rewrite E; [apply Hinv|].
    intros [_ ?]%lookup_delete_Some. eauto.
  - destruct (register_frame env body w) as (-> & _). apply Hinv.
  - rewrite login_frame. apply Hinv.
  - destruct (cart_routes_frame w (snd (RoutesCart.get env user w))) as [-> _];
      [eauto|apply Hinv].
  - destruct (cart_routes_frame w (snd (RoutesCart.addOrUpdateItem env user pid q w)))
      as [-> _]; [eauto 10|apply Hinv].
  - destruct (cart_routes_frame w (snd (RoutesCart.removeItem env user pid w)))
      as [-> _]; [eauto 10|apply Hinv].
Qed.

Lemma reachable_store_is_seller (w : World num) :
  reachable w -> store_is_seller w.
Proof.
  intros Hr. refine (rtc_ind_r store_is_seller _ _ _ w Hr).
  - intros id p. cbn. by rewrite lookup_empty.
  - intros w1 w2 _ Hstep IH. by apply (step_store_is_seller w1).
Qed.

Lemma Cart_validate_Forall (c : Cart num) :
  ModelsCart.Cart_validate c = true ->
  Forall (fun item => num_ge (quantity item) num_one = true) (items c).
Proof.
  unfold ModelsCart.Cart_validate, ModelsCart.cartItem_valid.
  rewrite forallb_forall, Forall_forall. intros Hall x Hx.
  apply Hall. by apply list_elem_of_In.
Qed.

Lemma step_quantities_valid (w w' : World num) :
  step w w' -> quantities_valid w -> quantities_valid w'.
Proof.
  assert (Hcart : forall w w' : World num,
    products w' = products w
    /\ (carts w' = carts w
        \/ exists c, ModelsCart.Cart_validate c = true
                     /\ carts w' = <[cart_user c := c]> (carts w)) ->
    quantities_valid w -> quantities_valid w').
  { intros v v' [_ [E|(c & Hc & E)]] Hinv uid c'; rewrite E; [apply Hinv|].
    intros [[_ <-]|[_ ?]]%lookup_insert_Some; [by apply Cart_validate_Forall|eauto]. }
  intros Hstep Hinv. destruct Hstep;
    try (eapply Hcart; [apply cart_routes_frame; solve [eauto 10]|done]);
    intros uid c.
  - destruct (products_routes_carts r env user (fresh_id env) body file w) as (-> & _).
    apply Hinv.
  - destruct (products_routes_carts r env user id body file w) as (_ & -> & _).
    apply Hinv.
  - destruct (products_routes_carts r env user id
                {| b_name := None; b_description := None; b_price := None |} None w)
      as (_ & _ & ->).
    apply Hinv.
  - destruct (register_frame env body w) as (_ & -> & _). apply Hinv.
  - rewrite login_frame. apply Hinv.
Qed.

Lemma reachable_quantities_valid (w : World num) :
  reachable w -> quantities_valid w.
Proof.
  intros Hr. refine (rtc_ind_r quantities_valid _ _ _ w Hr).
  - intros uid c. cbn. by rewrite lookup_empty.
  - intros w1 w2 _ Hstep IH. by apply (step_quantities_valid w1).
Qed.

#[local] Instance newer_first_total : Total (newer_first (num:=num)).
Proof. intros a b. unfold newer_first. lia. Qed.

(** C9. In every state the server can reach, the listing of a user's own
    store (when the database answers) is 200 with exactly the products whose
    seller reference is that user, each once, newest first; no product of
    another seller is in it.  The route filters on the store snapshot, which
    carries the seller's id in every reachable state. *)
Theorem my_store_lists_exactly_own_products env user (w : World num) :
  reachable w -> find_ok env = true ->
  exists l,
    RoutesProducts.my_store env user w = (respond 200 (JProducts l), w)
    /\ (forall x, x ∈ l <->
          exists id p, x = populate_seller w (id, p)
                       /\ products w !! id = Some p /\ seller p = u_id user)
    /\ NoDup (l_id <$> l)
    /\ Sorted listed_newer_first l.
Proof.
  intros Hinv%reachable_store_is_seller Hf.
  unfold RoutesProducts.my_store, Product_find. rewrite Hf.
  eexists. split; [reflexivity|]. split_and!.
  - intros x. rewrite list_elem_of_fmap. split.
    + intros ([id p] & -> & Hin). rewrite merge_sort_Permutation in Hin.
      apply list_elem_of_filter in Hin as [HP Hin].
      apply elem_of_map_to_list in Hin. cbn in HP.
      exists id, p. split_and!; [done..|]. by rewrite <- (Hinv id p Hin).
    + intros (id & p & -> & Hp & Hs). exists (id, p). split; [done|].
      rewrite merge_sort_Permutation. apply list_elem_of_filter. cbn.
      split; [by rewrite (Hinv id p Hp)|by apply elem_of_map_to_list].
  - rewrite <- list_fmap_compose.
    rewrite (list_fmap_ext (l_id ∘ populate_seller w) fst) by done.
    rewrite merge_sort_Permutation.
    apply (sublist_NoDup _ ((map_to_list (products w)).*1));
      [apply NoDup_fst_map_to_list|].
    apply fmap_sublist, sublist_filter.
  - eapply Sorted_fmap; [|apply (Sorted_merge_sort newer_first)].
    intros a b Hab. exact Hab.
Qed.

Lemma rejected_quantity_fails_validation pid (q : num) (l : list (CartItem num)) :
  num_ge q num_one = false ->
  forallb ModelsCart.cartItem_valid
    (if existsb (RoutesCart.refers pid) l
     then (fun item => if RoutesCart.refers pid item
                       then {| product := product item; quantity := q |}
                       else item) <$> l
     else l ++ [ {| product := Unpopulated pid; quantity := q |} ])%list = false.
Proof.
  intros Hq. destruct (existsb _ l) eqn:Hex.
  - induction l as [|item l IH]; [done|]. cbn in Hex. csimpl.
    destruct (RoutesCart.refers pid item) eqn:Hitem.
    + unfold ModelsCart.cartItem_valid at 1. cbn. by rewrite Hq.
    + cbn in Hex. rewrite (IH Hex). apply andb_false_r.
  - rewrite forallb_app. cbn. unfold ModelsCart.cartItem_valid at 2. cbn.
    rewrite Hq. apply andb_false_r.
Qed.

(** C10. In every state the server can reach, every line item of every cart
    has a quantity of at least 1; and a request to put a quantity that is not
    at least 1 into a cart is refused and leaves the world as it is. *)
Theorem cart_quantities_are_at_least_one (w : World num) uid c :
  reachable w -> carts w !! uid = Some c ->
  Forall (fun item => num_ge (quantity item) num_one = true) (items c)
  /\ forall env user pid q, num_ge q num_one = false ->
       status (fst (RoutesCart.addOrUpdateItem env user pid q w)) <> 200
       /\ snd (RoutesCart.addOrUpdateItem env user pid q w) = w.
Proof.
  intros Hinv%reachable_quantities_valid Hc. split; [by apply (Hinv uid)|].
  intros env user pid q Hq.
  unfold RoutesCart.addOrUpdateItem, ModelsCart.Cart_save, ModelsCart.Cart_validate.
  cbn [items]. rewrite (rejected_quantity_fails_validation pid q _ Hq).
  destruct (num_lt q num_one), (find_ok env); done.
Qed.
End Invariants.

(** ** Registration and login *)

Lemma lower_char_idem (c : ascii) : lower_char (lower_char c) = lower_char c.
Proof. destruct c as [[] [] [] [] [] [] [] []]; vm_compute; reflexivity. Qed.

Lemma toLowerCase_idem (s : string) : toLowerCase (toLowerCase s) = toLowerCase s.
Proof. induction s as [|c s IH]; [done|]. cbn. by rewrite lower_char_idem, IH. Qed.

Lemma truthy_Some (s : string) : s <> "" -> truthy (Some s) = true.
Proof. by destruct s. Qed.

Lemma or_else_Some (s d : string) : s <> "" -> or_else (Some s) d = s.
Proof. by destruct s. Qed.

Section Accounts.
Context {num : Type}.
Variable hashPassword : string -> string.
Variable comparePassword : User -> string -> result bool.
Variable jwt_sign : Z -> ObjectId -> string.

Lemma findOne_None env q (w : World num) :
  find_ok env = true ->
  (forall id v, users w !! id = Some v -> email v <> toLowerCase q) ->
  User_findOne env q w = Ok None.
Proof.
  intros Hf Hno. unfold User_findOne. rewrite Hf.
  replace (list_find _ _) with (@None (nat * (ObjectId * User))); [done|].
  symmetry. apply list_find_None, Forall_forall.
  intros [id v] Hin%elem_of_map_to_list. cbn. eauto.
Qed.

Lemma findOne_Some env q (w : World num) uid u :
  find_ok env = true -> users w !! uid = Some u -> email u = toLowerCase q ->
  exists id v, User_findOne env q w = Ok (Some (id, v))
               /\ users w !! id = Some v /\ email v = toLowerCase q.
Proof.
  intros Hf Hu He. unfold User_findOne. rewrite Hf.
  destruct (list_find_elem_of (fun d : ObjectId * User => email (snd d) = toLowerCase q)
              (map_to_list (users w)) (uid, u)) as [[i [id v]] Hfound];
    [by apply elem_of_map_to_list|done|].
  rewrite Hfound. exists id, v. split; [done|].
  apply list_find_Some in Hfound as (Hi & Hv & _).
  split; [|done]. apply elem_of_map_to_list, list_elem_of_lookup. eauto.
Qed.

(** C5. A login with an email no account has and a login with the email of
    an account and a password that does not match get the same answer, status
    and message: 400 "Invalid credentials" (both requests carry an email and a
    password, and the database answers). *)
Theorem login_rejections_are_identical
    env env' (w : World num) e pw e' pw' uid u :
  find_ok env = true -> find_ok env' = true ->
  e <> "" -> pw <> "" -> e' <> "" -> pw' <> "" ->
  (forall id v, users w !! id = Some v -> email v <> toLowerCase e) ->
  users w !! uid = Some u -> email u = toLowerCase e' ->
  (forall id v, users w !! id = Some v -> email v = toLowerCase e' ->
                comparePassword v pw' = Ok false) ->
  RoutesAuth.login comparePassword jwt_sign env
    {| RoutesAuth.l_email := Some e; RoutesAuth.l_password := Some pw |} w
  = (respond 400 (JMessage "Invalid credentials"), w)
  /\ RoutesAuth.login comparePassword jwt_sign env'
       {| RoutesAuth.l_email := Some e'; RoutesAuth.l_password := Some pw' |} w
     = (respond 400 (JMessage "Invalid credentials"), w).
Proof.
  intros Hf Hf' He Hpw He' Hpw' Hnone Hu Hmail Hwrong.
  unfold RoutesAuth.login. cbn [RoutesAuth.l_email RoutesAuth.l_password].
  rewrite !truthy_Some, !or_else_Some by done. cbn [negb orb]. split.
  - rewrite findOne_None; [done..|]. by rewrite toLowerCase_idem.
  - destruct (findOne_Some env' (toLowerCase e') w uid u) as (id & v & -> & Hv & Hvm);
      [done..|by rewrite toLowerCase_idem|].
    rewrite toLowerCase_idem in Hvm. by rewrite (Hwrong id v).
Qed.

(** A registration that is answered 201 has stored the user under the lower
    case of the email it gave. *)
Lemma register_201 env body (w : World num) e :
  RoutesAuth.r_email body = Some e ->
  status (fst (RoutesAuth.register hashPassword jwt_sign env body w)) = 201 ->
  exists uid doc,
    users (snd (RoutesAuth.register hashPassword jwt_sign env body w)) !! uid = Some doc
    /\ email doc = toLowerCase e.
Proof.
  intros He. unfold RoutesAuth.register, User_save. rewrite He.
  route_cases; intros _; eexists _, _; (split; [apply lookup_insert_eq|]); done.
Qed.

(** Whoever is stored under the lower case of an email, a well-formed
    registration with that email is a conflict. *)
Lemma register_conflict env (w : World num) uid u e' pw' n' role' si' :
  users w !! uid = Some u -> email u = toLowerCase e' ->
  find_ok env = true ->
  emailRegex_test e' = true -> 6 <= String.length pw' -> n' <> "" ->
  RoutesAuth.register hashPassword jwt_sign env
    {| RoutesAuth.r_email := Some e'; RoutesAuth.r_password := Some pw';
       RoutesAuth.r_name := Some n'; RoutesAuth.r_role := role';
       RoutesAuth.r_storeInfo := si' |} w
  = (respond 400 (JMessage "User already exists"), w).
Proof.
  intros Hu Hmail Hf Hre Hlen Hn.
  assert (e' <> "") by (intros ->; done).
  assert (pw' <> "") by (intros ->; cbn in Hlen; lia).
  unfold RoutesAuth.register.
  cbn [RoutesAuth.r_email RoutesAuth.r_password RoutesAuth.r_name].
  rewrite !truthy_Some, !or_else_Some by done. cbn [negb orb].
  rewrite Hre. cbn [negb].
  destruct (Nat.ltb_spec (String.length pw') 6) as [?|_]; [lia|].
  by destruct (findOne_Some env e' w uid u) as (id & v & -> & _).
Qed.

(** C6. Once a registration with the email [e] has succeeded, a second,
    well-formed registration with [e] or with an email that differs from [e]
    in letter case only is answered 400 "User already exists" (when the
    database answers the lookup), and no user is created. *)
Theorem second_registration_is_a_conflict
    env1 env2 (w : World num) body1 e e' pw' n' role' si' :
  RoutesAuth.r_email body1 = Some e ->
  status (fst (RoutesAuth.register hashPassword jwt_sign env1 body1 w)) = 201 ->
  toLowerCase e' = toLowerCase e ->
  find_ok env2 = true ->
  emailRegex_test e' = true -> 6 <= String.length pw' -> n' <> "" ->
  forall w1, w1 = snd (RoutesAuth.register hashPassword jwt_sign env1 body1 w) ->
  RoutesAuth.register hashPassword jwt_sign env2
    {| RoutesAuth.r_email := Some e'; RoutesAuth.r_password := Some pw';
       RoutesAuth.r_name := Some n'; RoutesAuth.r_role := role';
       RoutesAuth.r_storeInfo := si' |} w1
  = (respond 400 (JMessage "User already exists"), w1).
Proof.
  intros He H201 Hcase Hf Hre Hlen Hn w1 ->.
  destruct (register_201 env1 body1 w e He H201) as (uid & doc & Hdoc & Hmail).
  apply (register_conflict env2 _ uid doc); [done|congruence|done..].
Qed.
End Accounts.

(** ** The total of a cart *)

Section CartTotal.
Context {num : Type} `{!JsNumber num}.

Lemma sum_upto_ext (f g : nat -> num) n :
  (forall i, i < n -> f i = g i) -> sum_upto f n = sum_upto g n.
Proof.
  induction n as [|n IH]; [done|]. intros Hfg. cbn.
  rewrite IH by (intros i Hi; apply Hfg; lia). by rewrite Hfg by lia.
Qed.

(** Adding up a list from the left is the sum of its terms. *)
Lemma fold_left_sum_upto (l : list num) :
  fold_left num_add l num_zero = sum_upto (fun i => nth i l num_zero) (length l).
Proof.
  induction l as [|x l IH] using rev_ind; [done|].
  rewrite fold_left_app, length_app, Nat.add_1_r. cbn. rewrite IH. f_equal.
  - apply sum_upto_ext. intros i Hi. symmetry. by apply app_nth1.
  - rewrite app_nth2 by lia. by rewrite Nat.sub_diag.
Qed.

(** The loop of [getTotal] on a populated cart, from any running total. *)
Lemma getTotal_loop (w : World num) (l : list (CartItem num)) amounts acc :
  line_amount w <$> l = Some <$> amounts ->
  fold_left
    (fun total item =>
       match total with
       | Ok total =>
           match ModelsCart.item_price item with
           | Ok p => Ok (num_add total (num_mul p (quantity item)))
           | Throw e => Throw e
           end
       | Throw e => Throw e
       end)
    (ModelsCart.populate_item w <$> l) (Ok acc)
  = Ok (fold_left num_add amounts acc).
Proof.
  revert amounts acc. induction l as [|item l IH]; intros [|a amounts] acc Hl;
    try done.
  injection Hl as Ha Hl. csimpl. rewrite <- (IH _ _ Hl). f_equal.
  unfold line_amount in Ha. unfold ModelsCart.populate_item, ModelsCart.item_price.
  destruct (product item) as [id| |]; try done. cbn.
  destruct (products w !! id) as [doc|]; [|done]. cbn in *. by injection Ha as <-.
Qed.

(** C4. The total of a cart, populated with the products as they are stored
    now, is the sum over its line items of the stored price of the product
    times the quantity of the item; the total of a cart without items is 0.
    The prices are those of the world at the time of the computation, whatever
    they were when the items were added. *)
Theorem cart_total_is_the_live_sum (w : World num) (c : Cart num) amounts :
  line_amount w <$> items c = Some <$> amounts ->
  ModelsCart.getTotal (ModelsCart.Cart_populate w c)
  = Ok (sum_upto (fun i => nth i amounts num_zero) (length amounts))
  /\ (items c = [] ->
      ModelsCart.getTotal (ModelsCart.Cart_populate w c) = Ok num_zero).
Proof.
  intros Hl. split.
  - unfold ModelsCart.getTotal, ModelsCart.Cart_populate. cbn [items].
    rewrite (getTotal_loop w _ amounts) by done. by rewrite fold_left_sum_upto.
  - intros Hnil. unfold ModelsCart.getTotal, ModelsCart.Cart_populate.
    by rewrite Hnil.
Qed.
End CartTotal.

(** ** The scenario, request by request *)

Section ScenarioFacts.
Import Scenario.

Lemma scenario_reachable :
  reachable under_app hash compare sign listed
  /\ reachable under_app hash compare sign with_cart
  /\ reachable under_app hash compare sign repriced.
Proof.
  assert (H0 : reachable under_app hash compare sign registered).
  { eapply rtc_r;
      [|exact (step_register under_app hash compare sign
                 (at_time 1699999999000 (u_id b1)) b1_form s1_registered)].
    eapply rtc_r;
      [|exact (step_register under_app hash compare sign
                 (at_time 1699999998000 (u_id s1)) s1_form initial)].
    apply rtc_refl. }
  assert (H1 : reachable under_app hash compare sign listed).
  { eapply rtc_r; [exact H0|].
    exact (step_create under_app hash compare sign Mounted
             (at_time 1700000000000 mug_id) s1 mug_fields (Some mug_png) registered). }
  assert (H2 : reachable under_app hash compare sign with_cart).
  { eapply rtc_r; [exact H1|].
    exact (step_cart_add under_app hash compare sign
             (at_time 1700000001000 mug_id) b1 mug_id (Some 2%Z) listed). }
  split; [exact H1|]. split; [exact H2|].
  eapply rtc_r; [exact H2|].
  exact (step_put under_app hash compare sign CopyB
           (at_time 1700000002000 mug_id) s1 mug_id new_price None with_cart).
Qed.

(** The database refuses the write of the mug: 500, and the image that had
    been stored is gone. *)
Lemma failed_create_removes_the_upload_witness :
  (forall p, Product_save (write_down 1700000000000 mug_id) p
               (multer_single (Some mug_png) registered)
             = Throw (error_message (write_down 1700000000000 mug_id)))
  /\ forall res,
       res = products_create Mounted (write_down 1700000000000 mug_id) s1 mug_fields
               (Some mug_png) (multer_single (Some mug_png) registered) ->
       status (fst res) = 500
       /\ (path mug_png ∉ files (snd res))
       /\ snd res = fs_unlink (path mug_png) registered.
Proof.
  split; [intros p; reflexivity|].
  apply (failed_create_removes_the_upload Mounted
           (write_down 1700000000000 mug_id) s1 mug_fields mug_png registered).
  - left. reflexivity.
  - intros p. reflexivity.
Defined.

(** Two mugs in the cart of [b1], after the price went from 999 to 1200. *)
Lemma cart_total_is_the_live_sum_witness :
  carts repriced !! u_id b1 = Some b1_cart
  /\ line_amount with_cart <$> items b1_cart = Some <$> [Some 1998%Z]
  /\ line_amount repriced <$> items b1_cart = Some <$> [Some 2400%Z]
  /\ ModelsCart.getTotal (ModelsCart.Cart_populate repriced b1_cart)
     = Ok (sum_upto (fun i => nth i [Some 2400%Z] num_zero) 1)
  /\ (items b1_cart = [] ->
      ModelsCart.getTotal (ModelsCart.Cart_populate repriced b1_cart) = Ok num_zero).
Proof.
  split; [vm_compute; reflexivity|]. split; [vm_compute; reflexivity|].
  split; [vm_compute; reflexivity|].
  apply (cart_total_is_the_live_sum repriced b1_cart [Some 2400%Z]).
  vm_compute. reflexivity.
Defined.

(** Nobody has the first email; [s1] has the second, with another
    password. *)
Lemma login_rejections_are_identical_witness :
  RoutesAuth.login compare sign (at_time 1700000003000 mug_id)
    {| RoutesAuth.l_email := Some "nobody@example.com";
       RoutesAuth.l_password := Some "pw123456" |} registered
  = (respond 400 (JMessage "Invalid credentials"), registered)
  /\ RoutesAuth.login compare sign (at_time 1700000004000 mug_id)
       {| RoutesAuth.l_email := Some "S1@Example.com";
          RoutesAuth.l_password := Some "letmein" |} registered
     = (respond 400 (JMessage "Invalid credentials"), registered).
Proof.
  apply (login_rejections_are_identical compare sign
           (at_time 1700000003000 mug_id) (at_time 1700000004000 mug_id) registered
           "nobody@example.com" "pw123456" "S1@Example.com" "letmein"
           (u_id s1)
           {| email := "s1@example.com"; password := "#pw123456"; user_name := "s1";
              role := "seller"; storeInfo := Some {| si_name := Some "S1 Store" |} |}).
  - reflexivity.
  - reflexivity.
  - discriminate.
  - discriminate.
  - discriminate.
  - discriminate.
  - apply (bool_decide_unpack
             (map_Forall (fun _ v => email v <> toLowerCase "nobody@example.com")
                         (users registered))).
    vm_compute. reflexivity.
  - vm_compute. reflexivity.
  - vm_compute. reflexivity.
  - apply (bool_decide_unpack
             (map_Forall (fun _ v => email v = toLowerCase "S1@Example.com" ->
                                     compare v "letmein" = Ok false)
                         (users registered))).
    vm_compute. reflexivity.
Defined.

(** [s1] registered as "S1@Example.com"; a second registration writes the
    email in other letters. *)
Lemma second_registration_is_a_conflict_witness :
  status (fst (RoutesAuth.register hash sign (at_time 1699999998000 (u_id s1))
                 s1_form (initial (num:=Amount.t)))) = 201
  /\ toLowerCase "s1@EXAMPLE.com" = toLowerCase "S1@Example.com"
  /\ forall w1,
       w1 = snd (RoutesAuth.register hash sign (at_time 1699999998000 (u_id s1))
                   s1_form (initial (num:=Amount.t))) ->
       RoutesAuth.register hash sign (at_time 1700000005000 (u_id b1))
         {| RoutesAuth.r_email := Some "s1@EXAMPLE.com";
            RoutesAuth.r_password := Some "another1";
            RoutesAuth.r_name := Some "impostor";
            RoutesAuth.r_role := Some "user";
            RoutesAuth.r_storeInfo := None |} w1
       = (respond 400 (JMessage "User already exists"), w1).
Proof.
  split; [vm_compute; reflexivity|]. split; [vm_compute; reflexivity|].
  apply (second_registration_is_a_conflict hash sign
           (at_time 1699999998000 (u_id s1)) (at_time 1700000005000 (u_id b1))
           initial s1_form "S1@Example.com" "s1@EXAMPLE.com" "another1" "impostor").
  - reflexivity.
  - vm_compute. reflexivity.
  - vm_compute. reflexivity.
  - reflexivity.
  - vm_compute. reflexivity.
  - cbn. lia.
  - discriminate.
Defined.

(** The update of the price by [s1], through the second copy, succeeds and
    the mug is still the mug of [s1]. *)
Lemma update_keeps_the_seller_witness :
  products with_cart !! mug_id = Some mug
  /\ status (fst (products_put under_app CopyB (at_time 1700000002000 mug_id) s1
                    mug_id new_price None (multer_single None with_cart))) = 200
  /\ exists p',
       products (snd (products_put under_app CopyB (at_time 1700000002000 mug_id) s1
                        mug_id new_price None (multer_single None with_cart)))
         !! mug_id = Some p'
       /\ seller p' = seller mug /\ store p' = store mug
       /\ createdAt p' = createdAt mug.
Proof.
  split; [vm_compute; reflexivity|]. split; [vm_compute; reflexivity|].
  apply (update_keeps_the_seller under_app CopyB (at_time 1700000002000 mug_id) s1
           mug_id new_price None with_cart mug_id mug).
  vm_compute. reflexivity.
Defined.

(** The buyer [b1] asks for the update and for the deletion of the mug. *)
Lemma non_owner_is_refused_and_record_stays_witness :
  products listed !! mug_id = Some mug
  /\ seller mug <> u_id b1
  /\ refused_and_unchanged listed mug_id mug
       (products_put under_app CopyB (at_time 1700000006000 mug_id) b1 mug_id
          new_price None (multer_single None listed))
  /\ refused_and_unchanged listed mug_id mug
       (products_delete under_app CopyB (at_time 1700000006000 mug_id) b1 mug_id listed).
Proof.
  split; [vm_compute; reflexivity|]. split; [discriminate|].
  apply (non_owner_is_refused_and_record_stays under_app CopyB
           (at_time 1700000006000 mug_id) b1 mug_id new_price None listed mug).
  - reflexivity.
  - vm_compute. reflexivity.
  - discriminate.
Defined.

(** The store of [s1] once the mug is listed. *)
Lemma my_store_lists_exactly_own_products_witness :
  exists l,
    RoutesProducts.my_store (at_time 1700000007000 mug_id) s1 listed
    = (respond 200 (JProducts l), listed)
    /\ (forall x, x ∈ l <->
          exists id p, x = populate_seller listed (id, p)
                       /\ products listed !! id = Some p /\ seller p = u_id s1)
    /\ NoDup (l_id <$> l)
    /\ Sorted listed_newer_first l.
Proof.
  apply (my_store_lists_exactly_own_products under_app hash compare sign
           (at_time 1700000007000 mug_id) s1 listed).
  - apply scenario_reachable.
  - reflexivity.
Defined.

(** The cart of [b1] with its two mugs. *)
Lemma cart_quantities_are_at_least_one_witness :
  carts with_cart !! u_id b1 = Some b1_cart
  /\ Forall (fun item => num_ge (quantity item) num_one = true) (items b1_cart)
  /\ forall env user pid q, num_ge q num_one = false ->
       status (fst (RoutesCart.addOrUpdateItem env user pid q with_cart)) <> 200
       /\ snd (RoutesCart.addOrUpdateItem env user pid q with_cart) = with_cart.
Proof.
  split; [vm_compute; reflexivity|].
  apply (cart_quantities_are_at_least_one under_app hash compare sign
           with_cart (u_id b1) b1_cart).
  - apply scenario_reachable.
  - vm_compute. reflexivity.
Defined.
End ScenarioFacts.

(** ** More on the products routers *)

Section ProductRoutes.
Context {num : Type} `{!JsNumber num}.
Variable path_join_parent : string -> string.

#[local] Instance newer_first_is_total : Total (newer_first (num:=num)).
Proof. intros a b. unfold newer_first. lia. Qed.

(** X1. When the database answers, the listing of all products is 200 with
    every stored product, populated, each exactly once, newest first; the
    world is not changed. *)
Theorem list_returns_every_product_newest_first env (w : World num) :
  find_ok env = true ->
  exists l,
    RoutesProducts.list env w = (respond 200 (JProducts l), w)
    /\ (forall x, x ∈ l <->
          exists id p, x = populate_seller w (id, p) /\ products w !! id = Some p)
    /\ NoDup (l_id <$> l)
    /\ length l = size (products w)
    /\ Sorted listed_newer_first l.
Proof.
  intros Hf. unfold RoutesProducts.list, Product_find. rewrite Hf.
  eexists. split; [reflexivity|].
  assert (Hall : filter (fun d : ObjectId * Product num => True)
                   (map_to_list (products w)) = map_to_list (products w)).
  { induction (map_to_list (products w)) as [|d l IH]; [done|].
    rewrite filter_cons. destruct (decide True); [|done]. by rewrite IH. }
  rewrite Hall. split_and!.
  - intros x. rewrite list_elem_of_fmap. split.
    + intros ([id p] & -> & Hin). rewrite merge_sort_Permutation in Hin.
      apply elem_of_map_to_list in Hin. eauto.
    + intros (id & p & -> & Hp). exists (id, p). split; [done|].
      rewrite merge_sort_Permutation. by apply elem_of_map_to_list.
  - rewrite <- list_fmap_compose.
    rewrite (list_fmap_ext (l_id ∘ populate_seller w) fst) by done.
    rewrite merge_sort_Permutation. apply NoDup_fst_map_to_list.
  - rewrite length_fmap, merge_sort_Permutation. apply length_map_to_list.
  - eapply Sorted_fmap; [|apply (Sorted_merge_sort newer_first)].
    intros a b Hab. exact Hab.
Qed.

(** What a creation answered 201 has done. *)
Lemma create_201 r env user body f (w : World num) :
  status (fst (products_create r env user body (Some f) w)) = 201 ->
  exists doc,
    products_create r env user body (Some f) w
    = (respond 201 (JProduct (fresh_id env) doc),
       set_products (<[fresh_id env := doc]> (products w)) w)
    /\ products w !! fresh_id env = None
    /\ doc = {| name := b_name body; description := b_description body;
                price := Number (b_price body);
                image := Some ("/uploads/" +:+ filename f);
                seller := u_id user;
                store := {| store_id := u_id user;
                            store_name := or_else (u_name user) "Unknown Seller" |};
                createdAt := now env |}.
Proof.
  destruct r; cbn;
    unfold Part001B.create, Part001A.create, RoutesProducts.create, Product_save;
    route_cases; intros _; eexists; split_and!; reflexivity.
Qed.

Lemma my_store_has env user (w : World num) id p :
  find_ok env = true -> products w !! id = Some p ->
  store_id (store p) = u_id user ->
  exists l, RoutesProducts.my_store env user w = (respond 200 (JProducts l), w)
            /\ populate_seller w (id, p) ∈ l.
Proof.
  intros Hf Hp Hs. unfold RoutesProducts.my_store, Product_find. rewrite Hf.
  eexists. split; [done|].
  apply list_elem_of_fmap_2. rewrite merge_sort_Permutation.
  apply list_elem_of_filter. split; [done|]. by apply elem_of_map_to_list.
Qed.

(** X2. After a creation answered 201, the product is stored under the id
    the database picked (which was free), with the caller as seller, the
    uploaded file as image and the time of the request; the file is on disk;
    and the caller's own store lists the product. *)
Theorem created_product_is_in_own_store r env env' user body f (w : World num) :
  status (fst (products_create r env user body (Some f)
                 (multer_single (Some f) w))) = 201 ->
  find_ok env' = true ->
  forall w', w' = snd (products_create r env user body (Some f)
                         (multer_single (Some f) w)) ->
  exists doc l,
    products w !! fresh_id env = None
    /\ products w' !! fresh_id env = Some doc
    /\ seller doc = u_id user
    /\ image doc = Some ("/uploads/" +:+ filename f)
    /\ createdAt doc = now env
    /\ path f ∈ files w'
    /\ RoutesProducts.my_store env' user w' = (respond 200 (JProducts l), w')
    /\ populate_seller w' (fresh_id env, doc) ∈ l.
Proof.
  intros H201 Hf w' ->.
  destruct (create_201 r env user body f _ H201) as (doc & -> & Hnew & Hdoc).
  cbn [snd]. rewrite products_multer_single in Hnew.
  destruct (my_store_has env' user
              (set_products (<[fresh_id env:=doc]> (products (multer_single (Some f) w)))
                 (multer_single (Some f) w)) (fresh_id env) doc) as (l & Hl & Hin);
    [done|apply lookup_insert_eq|by rewrite Hdoc|].
  exists doc, l. split_and!; try done.
  - apply lookup_insert_eq.
  - by rewrite Hdoc.
  - by rewrite Hdoc.
  - by rewrite Hdoc.
  - cbn. apply elem_of_union_r, elem_of_singleton. reflexivity.
Qed.

(** X3. A creation request, whatever its outcome, leaves every product that
    was stored before exactly as it was. *)
Theorem create_never_touches_another_product
    r env user body file (w : World num) id p :
  products w !! id = Some p ->
  products (snd (products_create r env user body file (multer_single file w))) !! id
  = Some p.
Proof.
  intros Hp.
  destruct (create_products r env user body file (multer_single file w))
    as [E|(d & Hnew & _ & _ & E)]; cbv zeta in E; rewrite E;
    rewrite products_multer_single in *; [done|].
  rewrite lookup_insert_ne; [done|]. intros Heq. congruence.
Qed.

(** X5. In the two other copies, a user whose role is not ['seller'] is
    answered 403 "Only sellers can create products" by the creation route,
    and the world stays as the upload middleware left it. *)
Theorem copies_create_for_sellers_only r env user body file (w : World num) :
  r <> Mounted -> u_role user <> Some "seller" ->
  products_create r env user body file (multer_single file w)
  = (respond 403 (JMessage "Only sellers can create products"), multer_single file w).
Proof.
  intros Hr Hrole. destruct r; [done| |]; cbn;
    unfold Part001B.create, Part001A.create;
    by destruct (decide (u_role user <> Some "seller")).
Qed.

Lemma delete_is_void r env user id (w : World num) :
  snd (products_delete path_join_parent r env user id w) = w
  /\ status (fst (products_delete path_join_parent r env user id w)) <> 200.
Proof.
  destruct r; cbn; unfold Part001A.delete, Part001B.delete, RoutesProducts.delete,
    Product_findById;
    destruct (find_ok env); [|done| |done| |done];
    (destruct (products w !! id); [|done]);
    (destruct (decide _) as [_|E]; [done|]);
    exfalso; apply E, Store_toString_not_an_id.
Qed.

Lemma store_checked_put_is_void env user id body file (w : World num) :
  snd (RoutesProducts.put path_join_parent env user id body file w) = w
  /\ status (fst (RoutesProducts.put path_join_parent env user id body file w)) <> 200.
Proof.
  unfold RoutesProducts.put, Product_findById.
  destruct (find_ok env); [|done].
  destruct (products w !! id); [|done].
  destruct (decide _) as [_|E]; [done|].
  exfalso; apply E, Store_toString_not_an_id.
Qed.

(** X4. The routes that test [product.store.toString()] never write: the
    delete route of every copy, and the update route of [routes/products.js]
    and of the first copy, return the world they were given and never answer
    200. *)
Theorem store_checked_routes_never_write r env user id body file (w : World num) :
  snd (products_delete path_join_parent r env user id w) = w
  /\ status (fst (products_delete path_join_parent r env user id w)) <> 200
  /\ snd (products_put path_join_parent Mounted env user id body file w) = w
  /\ status (fst (products_put path_join_parent Mounted env user id body file w)) <> 200
  /\ snd (products_put path_join_parent CopyA env user id body file w) = w
  /\ status (fst (products_put path_join_parent CopyA env user id body file w)) <> 200.
Proof.
  split_and!; first [apply delete_is_void | apply store_checked_put_is_void].
Qed.
End ProductRoutes.

Section CopyBUpdate.
Context {num : Type} `{!JsNumber num}.
Variable path_join_parent : string -> string.

Lemma copyB_owner_check (p : Product num) user :
  oid_toString (seller p) <> oid_toString (u_id user) <-> seller p <> u_id user.
Proof.
  split; [congruence|]. intros Hne E. by apply Hne, oid_toString_inj.
Qed.

(** The update route of the second copy, case by case. *)
Lemma copyB_put_inv env user id body file (w : World num) :
  let res := Part001B.put path_join_parent env user id body file w in
  let cleanup (v : World num) :=
    match file with Some f => fs_unlink (path f) v | None => v end in
  (find_ok env = false
   /\ res = (respond 500 (JMessage "Error updating product"), cleanup w))
  \/ (find_ok env = true /\ products w !! id = None
      /\ res = (respond 404 (JMessage "Product not found"), w))
  \/ (exists p, find_ok env = true /\ products w !! id = Some p
        /\ seller p <> u_id user
        /\ res = (respond 403 (JMessage "Not authorized to update this product"), w))
  \/ (exists p w1, find_ok env = true /\ products w !! id = Some p
        /\ seller p = u_id user
        /\ w1 = match file with
                | Some _ => if truthy (image p)
                            then fs_unlink (path_join_parent (or_else (image p) "")) w
                            else w
                | None => w
                end
        /\ ((write_ok env = false
             /\ res = (respond 500 (JMessage "Error updating product"), cleanup w1))
            \/ (exists p', write_ok env = true
                  /\ res = (respond 200 (JProduct id p'),
                            set_products (<[id := p']> (products w1)) w1)
                  /\ image p' = match file with
                                | Some f => Some ("/uploads/" +:+ filename f)
                                | None => image p
                                end
                  /\ price p' = Number (b_price body)
                  /\ seller p' = seller p /\ store p' = store p
                  /\ createdAt p' = createdAt p))).
Proof.
  cbv zeta. unfold Part001B.put, Product_findById.
  destruct (find_ok env); [|by left].
  destruct (products w !! id) as [p|] eqn:Hp; [|right; left; done].
  destruct (decide _) as [Hne|Heq].
  { right; right; left. exists p. by rewrite <- copyB_owner_check. }
  right; right; right.
  assert (Hs : seller p = u_id user).
  { apply oid_toString_inj. by destruct (decide (oid_toString (seller p) = oid_toString (u_id user))). }
  unfold Product_findByIdAndUpdate.
  destruct file as [f|]; cbn.
  - eexists p, _. split_and!; [done..|].
    destruct (write_ok env); [|by left]. right.
    assert (Hp1 : products (if truthy (image p)
                            then fs_unlink (path_join_parent (or_else (image p) "")) w
                            else w) !! id = Some p) by by destruct (truthy (image p)).
    rewrite Hp1. eexists. split_and!; done.
  - eexists p, _. split_and!; [done..|].
    destruct (write_ok env); [|by left]. right.
    rewrite Hp. eexists. split_and!; done.
Qed.


(** X7. In the second copy, an update answered 200 that came with a new
    image, of a product that had one, points the record at the new file and
    has deleted the old file; the new file is on disk (unless it has the very
    path of the old one). *)
Theorem copyB_update_replaces_the_image env user id body f (w : World num) p img :
  products w !! id = Some p -> image p = Some img -> img <> "" ->
  forall res,
    res = Part001B.put path_join_parent env user id body (Some f)
            (multer_single (Some f) w) ->
    status (fst res) = 200 ->
    exists p',
      products (snd res) !! id = Some p'
      /\ image p' = Some ("/uploads/" +:+ filename f)
      /\ (path_join_parent img ∉ files (snd res))
      /\ (path f <> path_join_parent img -> path f ∈ files (snd res)).
Proof.
  intros Hp Himg Hne res -> H200.
  assert (Hp0 : products (multer_single (Some f) w) !! id = Some p) by done.
  destruct (copyB_put_inv env user id body (Some f) (multer_single (Some f) w))
    as [(_ & E)|[(_ & _ & E)|[(q & _ & _ & _ & E)|(q & w1 & _ & Hq & _ & Hw1 & Hcase)]]];
    cbv zeta in *; try (rewrite E in H200; done).
  destruct Hcase as [(_ & E)|(p' & _ & E & Hi & _)]; [rewrite E in H200; done|].
  simplify_eq. rewrite E. cbn [snd fst]. exists p'.
  rewrite Himg. rewrite (truthy_Some img Hne), (or_else_Some img "" Hne).
  split; [apply lookup_insert_eq|]. split; [done|]. cbn. split.
  - rewrite elem_of_difference, elem_of_singleton. tauto.
  - intros Hd. apply elem_of_difference. split.
    + apply elem_of_union_r, elem_of_singleton. reflexivity.
    + by rewrite elem_of_singleton.
Qed.

(** X8. In the second copy, an update that came with an image and is
    answered 500 has deleted the uploaded file and changed no product. *)
Theorem copyB_failed_update_removes_the_upload env user id body f (w : World num) :
  forall res,
    res = Part001B.put path_join_parent env user id body (Some f)
            (multer_single (Some f) w) ->
    status (fst res) = 500 ->
    (path f ∉ files (snd res)) /\ products (snd res) = products w.
Proof.
  intros res -> H500.
  destruct (copyB_put_inv env user id body (Some f) (multer_single (Some f) w))
    as [(_ & E)|[(_ & _ & E)|[(q & _ & _ & _ & E)|(q & w1 & _ & Hq & _ & Hw1 & Hcase)]]];
    cbv zeta in *; try (rewrite E in H500; done).
  - rewrite E. cbn. rewrite elem_of_difference, elem_of_singleton. split; [tauto|done].
  - destruct Hcase as [(_ & E)|(p' & _ & E & _)]; [|rewrite E in H500; done].
    rewrite E, Hw1. cbn. rewrite elem_of_difference, elem_of_singleton.
    split; [tauto|]. by destruct (truthy (image q)).
Qed.

(** X9. A creation or update answered 403 or 404 returns before any cleanup:
    the world is the one the upload middleware left, with the uploaded file
    still on disk. *)
Theorem refused_requests_keep_the_upload r env user id body file (w : World num) :
  forall res,
    res = products_put path_join_parent r env user id body file (multer_single file w)
    \/ res = products_create r env user body file (multer_single file w) ->
    status (fst res) = 403 \/ status (fst res) = 404 ->
    snd res = multer_single file w
    /\ forall f, file = Some f -> path f ∈ files (snd res).
Proof.
  intros res Hres Hst.
  assert (E : snd res = multer_single file w).
  { destruct Hres as [-> | ->].
    - destruct r; cbn in *; unfold Part001A.put in *;
        try apply store_checked_put_is_void.
      destruct (copyB_put_inv env user id body file (multer_single file w))
        as [(_ & E)|[(_ & _ & E)|[(q & _ & _ & _ & E)|(q & w1 & _ & _ & _ & _ & Hcase)]]];
        cbv zeta in *; try (by rewrite E).
      + rewrite E in Hst. by destruct Hst.
      + destruct Hcase as [(_ & E)|(p' & _ & E & _)]; rewrite E in Hst; by destruct Hst.
    - revert Hst. destruct r; cbn;
        unfold Part001B.create, Part001A.create, RoutesProducts.create, Product_save;
        route_cases; by intros []. }
  split; [done|]. intros f ->. rewrite E. cbn.
  apply elem_of_union_r, elem_of_singleton. reflexivity.
Qed.
End CopyBUpdate.

(** ** What no request undoes *)

Section Monotone.
Context {num : Type} `{!JsNumber num}.
Variable path_join_parent : string -> string.
Variable hashPassword : string -> string.
Variable comparePassword : User -> string -> result bool.
Variable jwt_sign : Z -> ObjectId -> string.

Local Abbreviation step := (step path_join_parent hashPassword comparePassword jwt_sign).
Local Abbreviation reachable :=
  (reachable path_join_parent hashPassword comparePassword jwt_sign).

(** A creation leaves the products as they are or adds one whose image is the
    uploaded file. *)
Lemma create_products_image r env user body file (w : World num) :
  let w' := snd (products_create r env user body file w) in
  products w' = products w
  \/ exists f p, file = Some f /\ image p = Some ("/uploads/" +:+ filename f)
                 /\ products w !! fresh_id env = None
                 /\ products w' = <[fresh_id env := p]> (products w).
Proof.
  destruct r; cbn;
    unfold Part001B.create, Part001A.create, RoutesProducts.create, Product_save;
    route_cases; eauto;
    match goal with
    | |- <[_ := ?d]> _ = _ \/ _ => right; eexists _, d; by split_and!
    end.
Qed.

(** An update leaves the products as they are or replaces one document by
    one of the same seller and creation time, whose image is the old one or
    the uploaded file. *)
Lemma put_products_doc r env user id body file (w : World num) :
  let w' := snd (products_put path_join_parent r env user id body file w) in
  products w' = products w
  \/ exists p p', products w !! id = Some p
                  /\ products w' = <[id := p']> (products w)
                  /\ seller p' = seller p /\ createdAt p' = createdAt p
                  /\ (image p' = image p
                      \/ exists f, image p' = Some ("/uploads/" +:+ filename f)).
Proof.
  destruct r; cbn; unfold Part001A.put;
    rewrite ?(proj1 (store_checked_put_is_void _ _ _ _ _ _ _)); auto.
  destruct (copyB_put_inv path_join_parent env user id body file w)
    as [(_ & E)|[(_ & _ & E)|[(q & _ & _ & _ & E)|(q & w1 & _ & Hq & _ & Hw1 & Hcase)]]];
    cbv zeta in *; try (rewrite E; left; by destruct file).
  assert (Hprod : products w1 = products w).
  { rewrite Hw1. destruct file; [|done]. by destruct (truthy (image q)). }
  destruct Hcase as [(_ & E)|(p' & _ & E & Hi & _ & Hs & _ & Hc)].
  { rewrite E. left. by destruct file. }
  rewrite E. cbn. right. exists q, p'. rewrite Hprod. split_and!; try done.
  destruct file; eauto.
Qed.

Lemma products_routes_users r env user id body file (w : World num) :
  users (snd (products_create r env user body file w)) = users w
  /\ users (snd (products_put path_join_parent r env user id body file w)) = users w
  /\ users (snd (products_delete path_join_parent r env user id w)) = users w.
Proof.
  split_and!.
  - destruct r; cbn;
      unfold Part001B.create, Part001A.create, RoutesProducts.create, Product_save;
      route_cases.
  - destruct r; cbn; unfold Part001A.put;
      rewrite ?(proj1 (store_checked_put_is_void _ _ _ _ _ _ _)); auto.
    destruct (copyB_put_inv path_join_parent env user id body file w)
      as [(_ & E)|[(_ & _ & E)|[(q & _ & _ & _ & E)|(q & w1 & _ & Hq & _ & Hw1 & Hcase)]]];
      cbv zeta in *; try (rewrite E; by destruct file).
    assert (Hu : users w1 = users w).
    { rewrite Hw1. destruct file; [|done]. by destruct (truthy (image q)). }
    destruct Hcase as [(_ & E)|(p' & _ & E & _)]; rewrite E; cbn; [|done].
    by destruct file.
  - by rewrite (proj1 (delete_is_void _ _ _ _ _ _)).
Qed.

Lemma register_users env body (w : World num) :
  let w' := snd (RoutesAuth.register hashPassword jwt_sign env body w) in
  users w' = users w
  \/ exists doc, users w !! fresh_id env = None
                 /\ users w' = <[fresh_id env := doc]> (users w).
Proof.
  unfold RoutesAuth.register, User_findOne, User_save. route_cases; eauto.
Qed.

Lemma cart_routes_users (w w' : World num) :
  (exists env user, w' = snd (RoutesCart.get env user w))
  \/ (exists env user pid q, w' = snd (RoutesCart.addOrUpdateItem env user pid q w))
  \/ (exists env user pid, w' = snd (RoutesCart.removeItem env user pid w)) ->
  users w' = users w.
Proof.
  intros [(env & user & ->) | [(env & user & pid & q & ->) | (env & user & pid & ->)]];
    unfold RoutesCart.get, RoutesCart.addOrUpdateItem, RoutesCart.removeItem,
           ModelsCart.Cart_save;
    route_cases.
Qed.

Lemma step_keeps_users (w w' : World num) id u :
  step w w' -> users w !! id = Some u -> users w' !! id = Some u.
Proof.
  intros Hstep Hu. destruct Hstep.
  - destruct (products_routes_users r env user (fresh_id env) body file
                (multer_single file w)) as (-> & _). by destruct file.
  - destruct (products_routes_users r env user id0 body file
                (multer_single file w)) as (_ & -> & _). by destruct file.
  - by rewrite (proj1 (delete_is_void _ _ _ _ _ _)).
  - destruct (register_users env body w) as [E|(doc & Hnew & E)];
      cbv zeta in E; rewrite E; [done|].
    rewrite lookup_insert_ne; [done|congruence].
  - by rewrite login_frame.
  - rewrite (cart_routes_users w (snd (RoutesCart.get env user w))); eauto.
  - rewrite (cart_routes_users w (snd (RoutesCart.addOrUpdateItem env user pid q w)));
      eauto 10.
  - rewrite (cart_routes_users w (snd (RoutesCart.removeItem env user pid w))); eauto 10.
Qed.

Lemma step_keeps_products (w w' : World num) id p :
  step w w' -> products w !! id = Some p ->
  exists p', products w' !! id = Some p'
             /\ seller p' = seller p /\ createdAt p' = createdAt p.
Proof.
  intros Hstep Hp. destruct Hstep.
  - destruct (create_products r env user body file (multer_single file w))
      as [E|(d & Hnew & _ & _ & E)]; cbv zeta in E; rewrite E;
      rewrite products_multer_single in *; [eauto|].
    rewrite lookup_insert_ne; [eauto|congruence].
  - destruct (put_products_doc r env user id0 body file (multer_single file w))
      as [E|(q & q' & Hq & E & Hs & Hc & _)]; cbv zeta in E; rewrite E;
      rewrite products_multer_single in *; [eauto|].
    destruct (decide (id0 = id)) as [->|Hne].
    + rewrite lookup_insert_eq. simplify_eq. eauto.
    + rewrite lookup_insert_ne by done. eauto.
  - rewrite (proj1 (delete_is_void _ _ _ _ _ _)). eauto.
  - destruct (register_frame hashPassword jwt_sign env body w) as (-> & _). eauto.
  - rewrite login_frame. eauto.
  - destruct (cart_routes_frame w (snd (RoutesCart.get env user w))) as [-> _]; eauto.
  - destruct (cart_routes_frame w (snd (RoutesCart.addOrUpdateItem env user pid q w)))
      as [-> _]; eauto 10.
  - destruct (cart_routes_frame w (snd (RoutesCart.removeItem env user pid w)))
      as [-> _]; eauto 10.
Qed.

(** X10. No sequence of requests removes a user or a product: a user stored
    at some point is stored unchanged ever after, and a product stored at some
    point is stored ever after with the same seller and creation time. *)
Theorem nothing_is_ever_removed (w w' : World num) :
  rtc step w w' ->
  (forall id u, users w !! id = Some u -> users w' !! id = Some u)
  /\ (forall id p, products w !! id = Some p ->
        exists p', products w' !! id = Some p'
                   /\ seller p' = seller p /\ createdAt p' = createdAt p).
Proof.
  intros Hrun. refine (rtc_ind_r
    (fun v => (forall id u, users w !! id = Some u -> users v !! id = Some u)
              /\ (forall id p, products w !! id = Some p ->
                    exists p', products v !! id = Some p'
                               /\ seller p' = seller p /\ createdAt p' = createdAt p))
    _ _ _ w' Hrun).
  - split; eauto.
  - intros w1 w2 _ Hstep [IHu IHp]. split.
    + intros id u Hu. eapply step_keeps_users; eauto.
    + intros id p Hp. destruct (IHp id p Hp) as (p1 & Hp1 & Hs1 & Hc1).
      destruct (step_keeps_products w1 w2 id p1 Hstep Hp1) as (p2 & Hp2 & Hs2 & Hc2).
      exists p2. split; [done|]. split; congruence.
Qed.

Lemma step_images_under_uploads (w w' : World num) :
  step w w' ->
  (forall id p, products w !! id = Some p ->
     exists fn, image p = Some ("/uploads/" +:+ fn)) ->
  forall id p, products w' !! id = Some p ->
    exists fn, image p = Some ("/uploads/" +:+ fn).
Proof.
  intros Hstep Hinv id p. destruct Hstep.
  - destruct (create_products_image r env user body file (multer_single file w))
      as [E|(f & d & _ & Hi & _ & E)]; cbv zeta in E; rewrite E;
      rewrite products_multer_single in *; [apply Hinv|].
    intros [[_ <-]|[_ ?]]%lookup_insert_Some; eauto.
  - destruct (put_products_doc r env user id0 body file (multer_single file w))
      as [E|(q & q' & Hq & E & _ & _ & Hi)]; cbv zeta in E; rewrite E;
      rewrite products_multer_single in *; [apply Hinv|].
    intros [[_ <-]|[_ ?]]%lookup_insert_Some; [|eauto].
    destruct Hi as [->|(f & ->)]; eauto.
  - rewrite (proj1 (delete_is_void _ _ _ _ _ _)). apply Hinv.
  - destruct (register_frame hashPassword jwt_sign env body w) as (-> & _). apply Hinv.
  - rewrite login_frame. apply Hinv.
  - destruct (cart_routes_frame w (snd (RoutesCart.get env user w))) as [-> _];
      [eauto|apply Hinv].
  - destruct (cart_routes_frame w (snd (RoutesCart.addOrUpdateItem env user pid q w)))
      as [-> _]; [eauto 10|apply Hinv].
  - destruct (cart_routes_frame w (snd (RoutesCart.removeItem env user pid w)))
      as [-> _]; [eauto 10|apply Hinv].
Qed.

(** X11. In every state the server can reach, the image of every product is
    a reference ["/uploads/<file name>"]: it is never missing. *)
Theorem images_are_under_uploads (w : World num) id p :
  reachable w -> products w !! id = Some p ->
  exists fn, image p = Some ("/uploads/" +:+ fn).
Proof.
  intros Hr. revert id p.
  refine (rtc_ind_r
    (fun v => forall id p, products v !! id = Some p ->
                exists fn, image p = Some ("/uploads/" +:+ fn)) _ _ _ w Hr).
  - intros id p. cbn. by rewrite lookup_empty.
  - intros w1 w2 _ Hstep IH. by apply (step_images_under_uploads w1).
Qed.
End Monotone.

(** ** More on registration and login *)

Lemma toLowerCase_empty (s : string) : toLowerCase s = "" <-> s = "".
Proof. by destruct s. Qed.

Section Sessions.
Context {num : Type}.
Variable hashPassword : string -> string.
Variable comparePassword : User -> string -> result bool.
Variable jwt_sign : Z -> ObjectId -> string.

(** What a registration answered 201 has done. *)
Lemma register_201_inv env body (w : World num) :
  status (fst (RoutesAuth.register hashPassword jwt_sign env body w)) = 201 ->
  exists e pw doc,
    RoutesAuth.r_email body = Some e /\ e <> ""
    /\ RoutesAuth.r_password body = Some pw /\ pw <> ""
    /\ email doc = toLowerCase e /\ password doc = hashPassword pw
    /\ users w !! fresh_id env = None
    /\ (forall id v, users w !! id = Some v -> email v <> toLowerCase e)
    /\ RoutesAuth.register hashPassword jwt_sign env body w
       = (respond 201 (JSession (jwt_sign (now env) (fresh_id env))
                         (RoutesAuth.public (fresh_id env) doc)),
          set_users (<[fresh_id env := doc]> (users w)) w).
Proof.
  unfold RoutesAuth.register, User_save.
  destruct (RoutesAuth.r_email body) as [[|c e]|] eqn:He; [done| |done].
  destruct (RoutesAuth.r_password body) as [[|c' pw]|] eqn:Hpw; [done| |done].
  cbn [truthy negb orb or_else].
  route_cases; intros _;
    (eexists _, _, _; split_and!; [reflexivity|done|reflexivity|done| | | | |reflexivity];
     [reflexivity|reflexivity|done|]);
    intros id v Hv;
    match goal with
    | H : list_find _ _ = None |- _ =>
        apply list_find_None in H; rewrite Forall_forall in H;
        apply (H (id, v)); by apply elem_of_map_to_list
    end.
Qed.

(** X12. After a registration with email [e] and password [pw] answered 201,
    a login with [pw] and [e] in any letter case (the database answering, and
    [comparePassword] accepting a password against its own hash) is answered
    200 with a token for the id of the registered user and that user's public
    fields. *)
Theorem registered_user_can_log_in env1 env2 (w : World num) body1 e pw e' :
  RoutesAuth.r_email body1 = Some e -> RoutesAuth.r_password body1 = Some pw ->
  status (fst (RoutesAuth.register hashPassword jwt_sign env1 body1 w)) = 201 ->
  toLowerCase e' = toLowerCase e ->
  find_ok env2 = true ->
  (forall u, password u = hashPassword pw -> comparePassword u pw = Ok true) ->
  forall w1, w1 = snd (RoutesAuth.register hashPassword jwt_sign env1 body1 w) ->
  exists doc,
    users w1 !! fresh_id env1 = Some doc
    /\ email doc = toLowerCase e
    /\ RoutesAuth.login comparePassword jwt_sign env2
         {| RoutesAuth.l_email := Some e'; RoutesAuth.l_password := Some pw |} w1
       = (respond 200 (JSession (jwt_sign (now env2) (fresh_id env1))
                         (RoutesAuth.public (fresh_id env1) doc)), w1).
Proof.
  intros He Hpw H201 Hcase Hf Hcmp w1 ->.
  destruct (register_201_inv env1 body1 w H201)
    as (e0 & pw0 & doc & He0 & Hne & Hpw0 & Hpne & Hmail & Hpass & Hnew & Huniq & E).
  simplify_eq. rewrite E. cbn [snd].
  exists doc. split; [apply lookup_insert_eq|]. split; [done|].
  assert (He' : e' <> "").
  { intros ->. symmetry in Hcase. by apply (proj1 (toLowerCase_empty e)) in Hcase. }
  unfold RoutesAuth.login. cbn [RoutesAuth.l_email RoutesAuth.l_password].
  rewrite !truthy_Some, !or_else_Some by done. cbn [negb orb].
  destruct (findOne_Some env2 (toLowerCase e')
              (set_users (<[fresh_id env1:=doc]> (users w)) w) (fresh_id env1) doc)
    as (id & v & -> & Hv & Hvm); [done|apply lookup_insert_eq| |].
  { by rewrite toLowerCase_idem, Hcase. }
  rewrite toLowerCase_idem, Hcase in Hvm. cbn in Hv.
  apply lookup_insert_Some in Hv as [[<- <-]|[_ Hv]];
    [|exfalso; by apply (Huniq id v Hv)].
  by rewrite (Hcmp doc Hpass).
Qed.

(** X13. Login looks the email up in lower case: two login requests whose
    emails differ in letter case only, with the same password field, get the
    same answer. *)
Theorem login_ignores_the_case_of_the_email env (w : World num) e e' pw :
  toLowerCase e = toLowerCase e' ->
  RoutesAuth.login comparePassword jwt_sign env
    {| RoutesAuth.l_email := Some e; RoutesAuth.l_password := pw |} w
  = RoutesAuth.login comparePassword jwt_sign env
      {| RoutesAuth.l_email := Some e'; RoutesAuth.l_password := pw |} w.
Proof.
  intros Hcase. unfold RoutesAuth.login.
  cbn [RoutesAuth.l_email RoutesAuth.l_password].
  destruct e as [|c e], e' as [|c' e']; try done.
  cbn [truthy or_else]. by rewrite Hcase.
Qed.
End Sessions.

(** ** The email pattern *)

Lemma all_plain_app (a b : string) :
  all_plain (a +:+ b) = all_plain a && all_plain b.
Proof. induction a as [|c a IH]; [done|]. simpl. by rewrite IH, andb_assoc. Qed.

Lemma substring_whole (s : string) : String.substring 0 (String.length s) s = s.
Proof. induction s as [|c s IH]; [done|]. simpl. by rewrite IH. Qed.

Lemma substring_app_l (a b : string) :
  String.substring 0 (String.length a) (a +:+ b) = a.
Proof.
  induction a as [|c a IH]; simpl; [by destruct b|]. by rewrite IH.
Qed.

Lemma substring_app_r (a b : string) :
  String.substring (String.length a) (String.length b) (a +:+ b) = b.
Proof. induction a as [|c a IH]; simpl; [apply substring_whole|done]. Qed.

Lemma length_app_string (a b : string) :
  String.length (a +:+ b) = String.length a + String.length b.
Proof. induction a as [|c a IH]; simpl; [done|]. by rewrite IH. Qed.

Lemma plain_not_at (c : ascii) : plain c = true -> c <> "@"%char.
Proof. intros H ->. done. Qed.

Lemma index_0_cons (pat : string) c (s : string) :
  String.index 0 pat (String c s)
  = if String.prefix pat (String c s) then Some 0
    else match String.index 0 pat s with
         | Some n => Some (S n)
         | None => None
         end.
Proof. reflexivity. Qed.

Lemma prefix_at c (s : string) :
  String.prefix "@" (String c s) = true <-> c = "@"%char.
Proof.
  change (String.prefix "@" (String c s))
    with (match ascii_dec "@" c with
          | left _ => String.prefix "" s
          | right _ => false
          end).
  destruct (ascii_dec "@" c) as [<-|Hne].
  - split; [done|]. intros _. destruct s; reflexivity.
  - split; [done|congruence].
Qed.

(** Where the first ['@'] is. *)
Lemma index_at_app (a r : string) :
  all_plain a = true ->
  String.index 0 "@" (a +:+ String "@" r) = Some (String.length a).
Proof.
  induction a as [|c a IH]; intros Ha.
  - change ("" +:+ String "@" r) with (String "@" r). rewrite index_0_cons.
    by rewrite (proj2 (prefix_at "@" r) eq_refl).
  - simpl in Ha. apply andb_prop in Ha as [Hc Ha].
    change (String c a +:+ String "@" r) with (String c (a +:+ String "@" r)).
    rewrite index_0_cons, (IH Ha).
    destruct (String.prefix "@" (String c (a +:+ String "@" r))) eqn:Hp; [|done].
    apply prefix_at in Hp as ->. done.
Qed.

Lemma index_at_inv (s : string) i :
  String.index 0 "@" s = Some i ->
  exists a r, s = a +:+ String "@" r /\ String.length a = i.
Proof.
  revert i. induction s as [|c s IH]; intros i; [done|]. rewrite index_0_cons.
  destruct (String.prefix "@" (String c s)) eqn:Hp.
  - apply prefix_at in Hp as ->. intros [= <-]. by exists "", s.
  - destruct (String.index 0 "@" s) as [j|]; [|done]. intros [= <-].
    destruct (IH j eq_refl) as (a & r & -> & <-). by exists (String c a), r.
Qed.

Lemma dot_before_end_iff (s : string) :
  dot_before_end s = true <->
  exists x c, s = x +:+ String "." c /\ c <> "".
Proof.
  induction s as [|a s IH]; simpl.
  - split; [done|]. intros ([|? ?] & c & ? & _); done.
  - rewrite orb_true_iff, andb_true_iff, IH. split.
    + intros [[Ha Hs]|(x & c & -> & Hc)].
      * apply Nat.eqb_eq in Ha.
        assert (a = "."%char) as ->.
        { rewrite <- (ascii_nat_embedding a), Ha. reflexivity. }
        exists "", s. split; [done|]. by destruct s.
      * by exists (String a x), c.
    + intros ([|b x] & c & [= -> ->] & Hc).
      * left. split; [done|]. by destruct c.
      * right. eauto.
Qed.

Lemma app_one (a : string) c (r : string) :
  (a +:+ String c "") +:+ r = a +:+ String c r.
Proof.
  induction a as [|b a IH]; [done|].
  change (String b ((a +:+ String c "") +:+ r) = String b (a +:+ String c r)).
  by rewrite IH.
Qed.

Lemma around_the_at (a r : string) :
  String.substring 0 (String.length a) (a +:+ String "@" r) = a
  /\ String.substring (String.length a + 1)
       (String.length (a +:+ String "@" r) - (String.length a + 1))
       (a +:+ String "@" r) = r.
Proof.
  split; [apply substring_app_l|].
  assert (Hl : String.length (a +:+ "@") = String.length a + 1).
  { rewrite length_app_string. reflexivity. }
  assert (Hr : String.length (a +:+ String "@" r) - (String.length a + 1)
               = String.length r).
  { rewrite <- (app_one a "@" r), length_app_string, Hl. lia. }
  rewrite Hr, <- Hl, <- (app_one a "@" r). apply substring_app_r.
Qed.

(** X14. The email pattern of the registration accepts exactly the strings
    [a@b.c] where [a], [b] and [c] are non-empty and free of white space and
    of ['@'] ([b] and [c] may contain dots). *)
Theorem emailRegex_accepts_exactly (s : string) :
  emailRegex_test s = true <->
  exists a b c, s = a +:+ "@" +:+ b +:+ "." +:+ c
                /\ a <> "" /\ b <> "" /\ c <> ""
                /\ all_plain a = true /\ all_plain b = true /\ all_plain c = true.
Proof.
  unfold emailRegex_test. split.
  - destruct (String.index 0 "@" s) as [i|] eqn:Hi; [|done].
    destruct (index_at_inv s i Hi) as (a & r & -> & <-).
    destruct (around_the_at a r) as [-> ->].
    rewrite !andb_true_iff. intros [[[Hne Ha] Hr] Hdot].
    destruct r as [|b0 r]; [done|].
    apply dot_before_end_iff in Hdot as (x & c & -> & Hc).
    exists a, (String b0 x), c.
    change (String b0 (x +:+ String "." c)) with (String b0 x +:+ String "." c) in Hr.
    rewrite all_plain_app in Hr. apply andb_prop in Hr as [Hb Hc'].
    split_and!; try done.
    intros ->. done.
  - intros (a & b & c & -> & Ha & Hb & Hc & Hpa & Hpb & Hpc).
    change (a +:+ "@" +:+ b +:+ "." +:+ c) with (a +:+ String "@" (b +:+ String "." c)).
    rewrite (index_at_app a _ Hpa).
    destruct (around_the_at a (b +:+ String "." c)) as [-> ->].
    rewrite !andb_true_iff. split_and!.
    + by destruct a.
    + done.
    + rewrite all_plain_app, Hpb. simpl. by rewrite Hpc.
    + destruct b as [|b0 b]; [done|].
      change (String b0 b +:+ String "." c) with (String b0 (b +:+ String "." c)).
      apply dot_before_end_iff. eauto.
Qed.

(** ** More on the total of a cart *)

Section CartTotalEdges.
Context {num : Type} `{!JsNumber num}.

Lemma getTotal_loop_throw (l : list (CartItem num)) e :
  fold_left
    (fun total item =>
       match total with
       | Ok total =>
           match ModelsCart.item_price item with
           | Ok p => Ok (num_add total (num_mul p (quantity item)))
           | Throw e => Throw e
           end
       | Throw e => Throw e
       end) l (Throw e) = Throw e.
Proof. induction l as [|item l IH]; [done|]. cbn. apply IH. Qed.

Lemma getTotal_loop_null (l : list (CartItem num)) acc :
  (exists msg, fold_left
     (fun total item =>
        match total with
        | Ok total =>
            match ModelsCart.item_price item with
            | Ok p => Ok (num_add total (num_mul p (quantity item)))
            | Throw e => Throw e
            end
        | Throw e => Throw e
        end) l (Ok acc) = Throw msg)
  <-> Exists (fun item => product item = PopulatedNull) l.
Proof.
  revert acc. induction l as [|item l IH]; intros acc.
  - split; [by intros [? ?]|by intros ?%Exists_nil].
  - cbn [fold_left]. rewrite Exists_cons.
    destruct (ModelsCart.item_price item) as [p|e] eqn:Hprice.
    + rewrite IH. split; [auto|]. intros [Hnull|?]; [|done].
      unfold ModelsCart.item_price in Hprice. by rewrite Hnull in Hprice.
    + rewrite getTotal_loop_throw. split; [|eauto]. intros _. left.
      unfold ModelsCart.item_price in Hprice. by destruct (product item).
Qed.

(** X15. [getTotal] throws exactly when the product of some line item is
    [null] (populated from a product that is gone); otherwise it returns a
    number. *)
Theorem getTotal_throws_exactly_on_a_null_product (c : Cart num) :
  (exists msg, ModelsCart.getTotal c = Throw msg)
  <-> Exists (fun item => product item = PopulatedNull) (items c).
Proof. apply getTotal_loop_null. Qed.

(** X16. A populated line item appended to a cart adds its price times its
    quantity to the total of the cart. *)
Theorem getTotal_of_one_more_item (c : Cart num) total id doc q :
  ModelsCart.getTotal c = Ok total ->
  ModelsCart.getTotal
    {| cart_user := cart_user c;
       items := items c ++ [ {| product := Populated id doc; quantity := q |} ] |}
  = Ok (num_add total (num_mul (price doc) q)).
Proof.
  unfold ModelsCart.getTotal. cbn [items]. intros Ht.
  by rewrite fold_left_app, Ht.
Qed.
End CartTotalEdges.

(** ** The scenario, continued *)

Section EpisodeFacts.
Import Scenario Episode.

Lemma scenario_run :
  rtc (step under_app hash compare sign) listed repriced.
Proof.
  eapply rtc_l;
    [exact (step_cart_add under_app hash compare sign
              (at_time 1700000001000 mug_id) b1 mug_id (Some 2%Z) listed)|].
  apply rtc_once.
  exact (step_put under_app hash compare sign CopyB
           (at_time 1700000002000 mug_id) s1 mug_id new_price None with_cart).
Qed.

Lemma list_returns_every_product_newest_first_witness :
  exists l,
    RoutesProducts.list (at_time 1700000010000 mug_id) repriced
    = (respond 200 (JProducts l), repriced)
    /\ (forall x, x ∈ l <->
          exists id p, x = populate_seller repriced (id, p)
                       /\ products repriced !! id = Some p)
    /\ NoDup (l_id <$> l)
    /\ length l = size (products repriced)
    /\ Sorted listed_newer_first l.
Proof.
  apply (list_returns_every_product_newest_first (at_time 1700000010000 mug_id) repriced).
  reflexivity.
Defined.

Lemma created_product_is_in_own_store_witness :
  status (fst (products_create Mounted (at_time 1700000000000 mug_id) s1 mug_fields
                 (Some mug_png) (multer_single (Some mug_png) registered))) = 201
  /\ forall w', w' = snd (products_create Mounted (at_time 1700000000000 mug_id) s1
                            mug_fields (Some mug_png)
                            (multer_single (Some mug_png) registered)) ->
     exists doc l,
       products registered !! fresh_id (at_time 1700000000000 mug_id) = None
       /\ products w' !! fresh_id (at_time 1700000000000 mug_id) = Some doc
       /\ seller doc = u_id s1
       /\ image doc = Some ("/uploads/" +:+ filename mug_png)
       /\ createdAt doc = now (at_time 1700000000000 mug_id)
       /\ path mug_png ∈ files w'
       /\ RoutesProducts.my_store (at_time 1700000010000 mug_id) s1 w'
          = (respond 200 (JProducts l), w')
       /\ populate_seller w' (fresh_id (at_time 1700000000000 mug_id), doc) ∈ l.
Proof.
  split; [vm_compute; reflexivity|].
  apply (created_product_is_in_own_store Mounted (at_time 1700000000000 mug_id)
           (at_time 1700000010000 mug_id) s1 mug_fields mug_png registered).
  - vm_compute. reflexivity.
  - reflexivity.
Defined.

Lemma create_never_touches_another_product_witness :
  products listed !! mug_id = Some mug
  /\ products (snd (products_create Mounted
                      (at_time 1700000011000 (oid "6500000000000000000000a2"))
                      b1 new_price (Some mug2_png)
                      (multer_single (Some mug2_png) listed))) !! mug_id
     = Some mug.
Proof.
  split; [vm_compute; reflexivity|].
  apply (create_never_touches_another_product Mounted
           (at_time 1700000011000 (oid "6500000000000000000000a2"))
           b1 new_price (Some mug2_png) listed mug_id mug).
  vm_compute. reflexivity.
Defined.

Lemma copies_create_for_sellers_only_witness :
  CopyA <> Mounted /\ u_role b1 <> Some "seller"
  /\ products_create CopyA (at_time 1700000011000 (oid "6500000000000000000000a2"))
       b1 new_price (Some mug2_png) (multer_single (Some mug2_png) listed)
     = (respond 403 (JMessage "Only sellers can create products"),
        multer_single (Some mug2_png) listed).
Proof.
  split; [discriminate|]. split; [discriminate|].
  apply (copies_create_for_sellers_only CopyA
           (at_time 1700000011000 (oid "6500000000000000000000a2"))
           b1 new_price (Some mug2_png) listed); discriminate.
Defined.


Lemma copyB_update_replaces_the_image_witness :
  products listed !! mug_id = Some mug
  /\ status (fst (Part001B.put under_app (at_time 1700000009000 mug_id) s1 mug_id
                    new_price (Some mug2_png)
                    (multer_single (Some mug2_png) listed))) = 200
  /\ exists p',
       products reimaged !! mug_id = Some p'
       /\ image p' = Some ("/uploads/" +:+ filename mug2_png)
       /\ (under_app "/uploads/1700000000000-123456789.png" ∉ files reimaged)
       /\ (path mug2_png <> under_app "/uploads/1700000000000-123456789.png" ->
           path mug2_png ∈ files reimaged).
Proof.
  split; [vm_compute; reflexivity|]. split; [vm_compute; reflexivity|].
  apply (copyB_update_replaces_the_image under_app (at_time 1700000009000 mug_id)
           s1 mug_id new_price mug2_png listed mug
           "/uploads/1700000000000-123456789.png").
  - vm_compute. reflexivity.
  - reflexivity.
  - discriminate.
  - reflexivity.
  - vm_compute. reflexivity.
Defined.

Lemma copyB_failed_update_removes_the_upload_witness :
  status (fst (Part001B.put under_app (write_down 1700000009000 mug_id) s1 mug_id
                 new_price (Some mug2_png)
                 (multer_single (Some mug2_png) listed))) = 500
  /\ forall res,
       res = Part001B.put under_app (write_down 1700000009000 mug_id) s1 mug_id
               new_price (Some mug2_png) (multer_single (Some mug2_png) listed) ->
       (path mug2_png ∉ files (snd res)) /\ products (snd res) = products listed.
Proof.
  split; [vm_compute; reflexivity|].
  intros res Hres.
  apply (copyB_failed_update_removes_the_upload under_app
           (write_down 1700000009000 mug_id) s1 mug_id new_price mug2_png listed
           res Hres).
  rewrite Hres. vm_compute. reflexivity.
Defined.

Lemma refused_requests_keep_the_upload_witness :
  status (fst (products_put under_app CopyB (at_time 1700000009000 mug_id) b1 mug_id
                 new_price (Some mug2_png)
                 (multer_single (Some mug2_png) listed))) = 403
  /\ forall res,
       res = products_put under_app CopyB (at_time 1700000009000 mug_id) b1 mug_id
               new_price (Some mug2_png) (multer_single (Some mug2_png) listed)
       \/ res = products_create CopyB (at_time 1700000009000 mug_id) b1 new_price
                  (Some mug2_png) (multer_single (Some mug2_png) listed) ->
       status (fst res) = 403 \/ status (fst res) = 404 ->
       snd res = multer_single (Some mug2_png) listed
       /\ forall f, Some mug2_png = Some f -> path f ∈ files (snd res).
Proof.
  split; [vm_compute; reflexivity|].
  apply (refused_requests_keep_the_upload under_app CopyB
           (at_time 1700000009000 mug_id) b1 mug_id new_price (Some mug2_png) listed).
Defined.

Lemma nothing_is_ever_removed_witness :
  users listed !! u_id b1 <> None
  /\ products listed !! mug_id = Some mug
  /\ (forall id u, users listed !! id = Some u -> users repriced !! id = Some u)
  /\ (forall id p, products listed !! id = Some p ->
        exists p', products repriced !! id = Some p'
                   /\ seller p' = seller p /\ createdAt p' = createdAt p).
Proof.
  split; [vm_compute; discriminate|]. split; [vm_compute; reflexivity|].
  apply (nothing_is_ever_removed under_app hash compare sign listed repriced).
  exact scenario_run.
Defined.

Lemma images_are_under_uploads_witness :
  products repriced !! mug_id <> None
  /\ forall p, products repriced !! mug_id = Some p ->
       exists fn, image p = Some ("/uploads/" +:+ fn).
Proof.
  split; [vm_compute; discriminate|].
  intros p. apply (images_are_under_uploads under_app hash compare sign repriced mug_id p).
  apply scenario_reachable.
Defined.

Lemma registered_user_can_log_in_witness :
  status (fst (RoutesAuth.register hash sign (at_time 1699999998000 (u_id s1))
                 s1_form (initial (num:=Amount.t)))) = 201
  /\ forall w1,
       w1 = snd (RoutesAuth.register hash sign (at_time 1699999998000 (u_id s1))
                   s1_form (initial (num:=Amount.t))) ->
       exists doc,
         users w1 !! fresh_id (at_time 1699999998000 (u_id s1)) = Some doc
         /\ email doc = toLowerCase "S1@Example.com"
         /\ RoutesAuth.login compare sign (at_time 1700000012000 mug_id)
              {| RoutesAuth.l_email := Some "s1@EXAMPLE.COM";
                 RoutesAuth.l_password := Some "pw123456" |} w1
            = (respond 200
                 (JSession (sign (now (at_time 1700000012000 mug_id))
                              (fresh_id (at_time 1699999998000 (u_id s1))))
                    (RoutesAuth.public (fresh_id (at_time 1699999998000 (u_id s1))) doc)),
               w1).
Proof.
  split; [vm_compute; reflexivity|].
  apply (registered_user_can_log_in hash compare sign
           (at_time 1699999998000 (u_id s1)) (at_time 1700000012000 mug_id)
           initial s1_form "S1@Example.com" "pw123456" "s1@EXAMPLE.COM").
  - reflexivity.
  - reflexivity.
  - vm_compute. reflexivity.
  - vm_compute. reflexivity.
  - reflexivity.
  - intros u Hu. unfold compare. rewrite Hu.
    destruct (bool_decide_reflect (hash "pw123456" = hash "pw123456")); [reflexivity|].
    exfalso. auto.
Defined.

Lemma login_ignores_the_case_of_the_email_witness :
  toLowerCase "S1@Example.com" = toLowerCase "s1@EXAMPLE.COM"
  /\ RoutesAuth.login compare sign (at_time 1700000012000 mug_id)
       {| RoutesAuth.l_email := Some "S1@Example.com";
          RoutesAuth.l_password := Some "pw123456" |} registered
     = RoutesAuth.login compare sign (at_time 1700000012000 mug_id)
         {| RoutesAuth.l_email := Some "s1@EXAMPLE.COM";
            RoutesAuth.l_password := Some "pw123456" |} registered.
Proof.
  split; [vm_compute; reflexivity|].
  apply (login_ignores_the_case_of_the_email compare sign
           (at_time 1700000012000 mug_id) registered).
  vm_compute. reflexivity.
Defined.

Lemma getTotal_of_one_more_item_witness :
  ModelsCart.getTotal (ModelsCart.Cart_populate repriced b1_cart) = Ok (Some 2400%Z)
  /\ ModelsCart.getTotal
       {| cart_user := cart_user (ModelsCart.Cart_populate repriced b1_cart);
          items := items (ModelsCart.Cart_populate repriced b1_cart)
                   ++ [ {| product := Populated mug_id mug; quantity := Some 3%Z |} ] |}
     = Ok (num_add (Some 2400%Z) (num_mul (price mug) (Some 3%Z))).
Proof.
  split; [vm_compute; reflexivity|].
  apply (getTotal_of_one_more_item (ModelsCart.Cart_populate repriced b1_cart)
           (Some 2400%Z) mug_id mug (Some 3%Z)).
  vm_compute. reflexivity.
Defined.
End EpisodeFacts.
